(** * WebLLM chat kernel: federation container, model session and magics

    A shallow embedding of [src/federation.ts], the Module Federation
    container of [@wiki3-ai/webllm-chat-kernel] with the two kernel
    classes it defines, and of [src/models.ts].

    - JavaScript strings are [string]s whose characters are code units
      in the range U+0000..U+00FF.
    - Module-level variables, object fields and the host's output
      channels are fields of explicit state records; functions that
      read or write them, or that may throw, live in the monad [M].
    - [async] functions are run to completion: an [await] is a
      sequencing point, a rejected promise is a thrown value. *)

From Stdlib Require Import List String Ascii Bool Arith Lia.
From Stdlib Require Import DecimalString.
Import ListNotations.
Local Open Scope list_scope.
Local Open Scope string_scope.

(* ================================================================= *)
(** ** JavaScript strings *)

Module JsString.

(** A line feed and a double quote, written by character code. *)
Definition lf : string := String "010"%char EmptyString.
Definition dq : string := String "034"%char EmptyString.

(** [WhiteSpace] and [LineTerminator] code units below U+0100: the
    characters removed by [String.prototype.trim] and matched by the
    regular-expression class [\s]. *)
Definition isWhiteSpace (c : ascii) : bool :=
  let n := nat_of_ascii c in
  (Nat.eqb n 9 || Nat.eqb n 10 || Nat.eqb n 11 || Nat.eqb n 12
   || Nat.eqb n 13 || Nat.eqb n 32 || Nat.eqb n 160)%bool.

Fixpoint trimStart (s : string) : string :=
  match s with
  | EmptyString => EmptyString
  | String c s' => if isWhiteSpace c then trimStart s' else s
  end.

Fixpoint trimEnd (s : string) : string :=
  match s with
  | EmptyString => EmptyString
  | String c s' =>
      match trimEnd s' with
      | EmptyString => if isWhiteSpace c then EmptyString else String c EmptyString
      | t => String c t
      end
  end.

(** [s.trim()] *)
Definition trim (s : string) : string := trimEnd (trimStart s).

(** [s.startsWith(p)], returning what follows the prefix. *)
Fixpoint stripPrefix (p s : string) : option string :=
  match p, s with
  | EmptyString, _ => Some s
  | String a p', String b s' => if Ascii.eqb a b then stripPrefix p' s' else None
  | String _ _, EmptyString => None
  end.

(** [hay.includes(needle)] *)
Fixpoint includes (needle hay : string) : bool :=
  match stripPrefix needle hay with
  | Some _ => true
  | None => match hay with
            | EmptyString => false
            | String _ hay' => includes needle hay'
            end
  end.

Fixpoint allNonWhiteSpace (s : string) : bool :=
  match s with
  | EmptyString => true
  | String c s' => negb (isWhiteSpace c) && allNonWhiteSpace s'
  end.

(** A match of [\S+] against the whole of [s]. *)
Definition isToken (s : string) : bool :=
  match s with
  | EmptyString => false
  | String _ _ => allNonWhiteSpace s
  end.

(** A match of [\s+] at the start of [s] (greedy), returning the rest. *)
Definition skipWhiteSpace1 (s : string) : option string :=
  match s with
  | String c s' => if isWhiteSpace c then Some (trimStart s') else None
  | EmptyString => None
  end.

(** [arr.join(sep)] *)
Definition join (sep : string) (l : list string) : string := String.concat sep l.

(** Decimal rendering of a length, as in a template literal. *)
Definition ofNat (n : nat) : string := NilZero.string_of_uint (Nat.to_uint n).

End JsString.

(* ================================================================= *)
(** ** Thrown values and the state-and-exception monad *)

(** A thrown value, seen through the two observations the code makes
    of it: its [message] property, if it has one, and [String(err)]. *)
Record Thrown : Type := mkThrown {
  thrown_message : option string;
  thrown_string : string
}.

(** [new Error(msg)] *)
Definition Error (msg : string) : Thrown :=
  {| thrown_message := Some msg; thrown_string := "Error: " ++ msg |}.

(** [new TypeError(msg)], raised by the language itself. *)
Definition TypeError (msg : string) : Thrown :=
  {| thrown_message := Some msg; thrown_string := "TypeError: " ++ msg |}.

Inductive Outcome (A : Type) : Type :=
| Returned (a : A)
| Threw (e : Thrown).
Arguments Returned {A} a.
Arguments Threw {A} e.

(** A computation over a store [S]: writes made before a throw stay. *)
Definition M (S A : Type) : Type := S -> Outcome A * S.

Definition ret {S A} (a : A) : M S A := fun s => (Returned a, s).

Definition bind {S A B} (m : M S A) (k : A -> M S B) : M S B :=
  fun s => match m s with
           | (Returned a, s') => k a s'
           | (Threw e, s') => (Threw e, s')
           end.

Definition throw {S A} (e : Thrown) : M S A := fun s => (Threw e, s).

Definition getState {S} : M S S := fun s => (Returned s, s).

Definition modify {S} (f : S -> S) : M S unit := fun s => (Returned tt, f s).

(** [try { body } catch (err) { handler }] *)
Definition tryCatch {S A} (body : M S A) (handler : Thrown -> M S A) : M S A :=
  fun s => match body s with
           | (Returned a, s') => (Returned a, s')
           | (Threw e, s') => handler e s'
           end.

(** [P] holds of the store after [m] whenever it held before,
    whether [m] returns or throws. *)
Definition preserves {S A} (P : S -> Prop) (m : M S A) : Prop :=
  forall s, P s -> P (snd (m s)).

Declare Scope js_scope.
Delimit Scope js_scope with js.
Notation "x <- c1 ;; c2" := (bind c1 (fun x => c2))
  (at level 100, c1 at next level, right associativity) : js_scope.
Notation "c1 ;; c2" := (bind c1 (fun _ => c2))
  (at level 100, right associativity) : js_scope.
Local Open Scope js_scope.

(* ================================================================= *)
(** ** JavaScript values handed over by the host *)

(** The values a shared-scope factory can produce, as far as
    [importShared] and the plugin thunk inspect them.
    - [VObject]: an ordinary object (a module's exports), with its own
      properties in enumeration order; its [then] is not callable.
    - [VFunction]: [typeof v === "function"]; [call] is what a call
      without arguments does, [constructible] tells a class or
      [function] from an arrow function.
    - [VPromise]: a promise (or any thenable) and how it settles. *)
#[warnings="-register-all"]
Inductive jsval : Type :=
| VUndefined
| VNull
| VBool (b : bool)
| VString (s : string)
| VObject (props : list (string * jsval))
| VFunction (constructible : bool) (call : Outcome jsval)
| VPromise (settles : Outcome jsval).

Module Js.

(** [ToBoolean(v)] *)
Definition truthy (v : jsval) : bool :=
  match v with
  | VUndefined | VNull => false
  | VBool b => b
  | VString s => negb (String.eqb s "")
  | VObject _ | VFunction _ _ | VPromise _ => true
  end.

(** [typeof v === "function"] *)
Definition isFunction (v : jsval) : bool :=
  match v with VFunction _ _ => true | _ => false end.

(** [v && typeof v.then === "function"] *)
Definition isThenable (v : jsval) : bool :=
  match v with VPromise _ => true | _ => false end.

(** [await v]: a thenable is followed until it settles with a value
    that is not a thenable; anything else is its own result. *)
Fixpoint await (v : jsval) : Outcome jsval :=
  match v with
  | VPromise (Returned v') => await v'
  | VPromise (Threw e) => Threw e
  | _ => Returned v
  end.

(** [v()] *)
Definition call (v : jsval) : Outcome jsval :=
  match v with
  | VFunction _ r => r
  | _ => Threw (TypeError "result is not a function")
  end.

Fixpoint lookup {A} (k : string) (props : list (string * A)) : option A :=
  match props with
  | [] => None
  | (k', a) :: rest => if String.eqb k k' then Some a else lookup k rest
  end.

(** [v.k], also as [const { k } = v]: reading a property of [null] or
    [undefined] throws, a missing property is [undefined]. *)
Definition getProp (v : jsval) (k : string) : Outcome jsval :=
  match v with
  | VUndefined | VNull =>
      Threw (TypeError ("Cannot read property '" ++ k ++ "'"))
  | VObject props =>
      match lookup k props with Some x => Returned x | None => Returned VUndefined end
  | _ => Returned VUndefined
  end.

(** What [class C extends v] accepts: a constructor or [null]. *)
Definition isSuperclass (v : jsval) : bool :=
  match v with
  | VNull => true
  | VFunction constructible _ => constructible
  | _ => false
  end.

End Js.

(** Lifting of an outcome that needs no store. *)
Definition liftOutcome {S A} (o : Outcome A) : M S A := fun s => (o, s).

(* ================================================================= *)
(** ** The Module Federation container *)

Module Federation.

(** One entry of a version table: [get] is what calling the factory
    does, or [None] when [version?.get] is not a function. *)
Record Version : Type := mkVersion { version_get : option (Outcome jsval) }.

(** package name -> version string -> entry, both in the order of
    [Object.keys]. *)
Definition Versions : Type := list (string * Version).
Definition Scope : Type := list (string * Versions).

Record State : Type := mkState {
  sharedScope : option Scope;                  (* [let sharedScope: any = null] *)
  webpack_share_scopes_default : option Scope  (* [window.__webpack_share_scopes__.default] *)
}.

Definition tag : string := "[webllm-chat-kernel]".

(** [Object.keys(sharedScope)] inside a template literal. *)
Definition keys {A} (o : list (string * A)) : list string := map fst o.

(** The two unwrap steps at the end of [importShared]. *)
Definition awaitIfThenable (result : jsval) : Outcome jsval :=
  if Js.isThenable result then Js.await result else Returned result.

Definition callIfFunction (result : jsval) : Outcome jsval :=
  if Js.isFunction result then Js.call result else Returned result.

(** The body of [importShared], up to its [return result]. *)
Definition importShared_body (pkg : string) : M State jsval :=
  st <- getState ;;
  scope <- match sharedScope st with
           | Some scope => ret scope
           | None =>
               match webpack_share_scopes_default st with
               | Some g =>
                   modify (fun st => {| sharedScope := Some g;
                                        webpack_share_scopes_default :=
                                          webpack_share_scopes_default st |}) ;;
                   ret g
               | None =>
                   throw (Error (tag ++ " Shared scope not initialized when requesting " ++ pkg))
               end
           end ;;
  match Js.lookup pkg scope with
  | None =>
      throw (Error (tag ++ " Shared module " ++ pkg
                      ++ " not found in shared scope. Available: "
                      ++ JsString.join "," (keys scope)))
  | Some versions =>
      match versions with
      | [] => throw (Error (tag ++ " No versions available for " ++ pkg))
      | (_, version) :: _ =>
          match version_get version with
          | None => throw (Error (tag ++ " Module " ++ pkg ++ " has no factory function"))
          | Some factory =>
              result <- liftOutcome factory ;;
              result <- liftOutcome (awaitIfThenable result) ;;
              result <- liftOutcome (callIfFunction result) ;;
              ret result
          end
      end
  end.

(** [await importShared(pkg)]: the promise of an [async] function
    adopts a thenable [result]. *)
Definition importShared (pkg : string) : M State jsval :=
  result <- importShared_body pkg ;;
  liftOutcome (Js.await result).

(** [container.init] *)
Definition init (scope : option Scope) : M State unit :=
  modify (fun st => {| sharedScope := scope;
                       webpack_share_scopes_default := webpack_share_scopes_default st |}).

(** The plugin object, without its [activate] function: what
    [activate] does to the kernel's default model is [updateSettings]
    below. *)
Record PluginDescriptor : Type := mkPlugin {
  id : string;
  autoStart : bool;
  requires : list jsval;
  optional : list jsval
}.

Record ModuleExports : Type := mkExports {
  __esModule : bool;
  default : list PluginDescriptor
}.

(** The thunk returned by [container.get]. *)
Definition pluginModule : M State ModuleExports :=
  kernelModule <- importShared "@jupyterlite/kernel" ;;
  BaseKernel <- liftOutcome (Js.getProp kernelModule "BaseKernel") ;;
  IKernelSpecs <- liftOutcome (Js.getProp kernelModule "IKernelSpecs") ;;
  widgets <- importShared "@lumino/widgets" ;;
  _ <- liftOutcome (Js.getProp widgets "Widget") ;;
  apputils <- importShared "@jupyterlab/apputils" ;;
  _ <- liftOutcome (Js.getProp apputils "ReactWidget") ;;
  _ <- importShared "react" ;;
  uiComponents <- importShared "@jupyterlab/ui-components" ;;
  _ <- liftOutcome (Js.getProp uiComponents "HTMLSelect") ;;
  (* class WebLLMLiteKernel extends BaseKernel *)
  (if Js.isSuperclass BaseKernel then ret tt
   else throw (TypeError "Class extends value is not a constructor or null")) ;;
  ISettingRegistry <-
    tryCatch
      (settingModule <- importShared "@jupyterlab/settingregistry" ;;
       liftOutcome (Js.getProp settingModule "ISettingRegistry"))
      (fun _ => ret VNull) ;;
  let webllmChatKernelPlugin :=
    {| id := "@wiki3-ai/webllm-chat-kernel:plugin";
       autoStart := true;
       requires := [IKernelSpecs];
       optional := if Js.truthy ISettingRegistry then [ISettingRegistry] else [] |} in
  let plugins := [webllmChatKernelPlugin] in
  ret {| __esModule := true; default := plugins |}.

(** [container.get] *)
Definition get (module : string) : M State (M State ModuleExports) :=
  if (String.eqb module "./index" || String.eqb module "./extension")%bool
  then ret pluginModule
  else throw (Error ("[webllm-chat-kernel/federation] Unknown module: " ++ module)).

End Federation.


(* ================================================================= *)
(** ** The model catalog ([src/models.ts]) *)

(** The two exports of [models.ts] the kernel reads.  The kernel code
    is written against the interface, so that it can be run on the
    catalog of the repository and on small catalogs alike. *)
Class ModelCatalog : Type := mkCatalog {
  WEBLLM_MODELS : list string;
  DEFAULT_WEBLLM_MODEL : string
}.

(** The catalog of the repository. *)
Definition models_ts : ModelCatalog :=
  {| WEBLLM_MODELS :=
       [ "SmolLM2-360M-Instruct-q4f16_1-MLC";
         "TinyLlama-1.1B-Chat-v1.0-q4f16_1-MLC-1k";
         "Llama-3.2-3B-Instruct-q4f16_1-MLC";
         "Mistral-7B-Instruct-v0.3-q4f16_1-MLC" ];
     DEFAULT_WEBLLM_MODEL := "Llama-3.2-3B-Instruct-q4f16_1-MLC" |}.

(** Modelled from the spec: [isValidWebLLMModel], imported from
    [models.js] by [federation.ts] but not part of the sources at hand.
    The spec has both the magic command and the programmatic switch
    "validate against" the static catalog, which is membership of the
    identifier in [WEBLLM_MODELS]. *)
Definition isValidWebLLMModel {catalog : ModelCatalog} (modelId : string) : bool :=
  existsb (String.eqb modelId) WEBLLM_MODELS.

(* ================================================================= *)
(** ** The model runtime ([@built-in-ai/web-llm] and [ai]) *)

(** The handle built by [webLLM(modelName, { initProgressCallback })]:
    an object bound to a model identifier.  Building it does not fail. *)
Record Handle : Type := webLLM { modelId : string }.

Inductive Availability : Type :=
| unavailable | downloadable | downloading | available.

(** A progress report is passed on untouched as the [detail] of a
    [webllm:model-progress] event. *)
Definition Report : Type := string.

(** What [createSessionWithProgress] does: it reports progress some
    number of times, then resolves or rejects. *)
Record SessionCreation : Type := mkSessionCreation {
  reports : list Report;
  rejection : option Thrown
}.

(** What iterating [result.textStream] does: it yields these
    fragments in this order, then ends or throws. *)
Record TextStream : Type := mkTextStream {
  fragments : list string;
  failure : option Thrown
}.

(** The behaviour of the runtime during one call of [send]. *)
Record Runtime : Type := mkRuntime {
  availability : Handle -> Outcome Availability;
  createSessionWithProgress : Handle -> SessionCreation;
  streamText : Handle -> string -> Outcome TextStream
}.

(* ================================================================= *)
(** ** Kernel state *)

(** The private fields of [WebLLMChatKernel]. *)
Record WebLLMChatKernel : Type := mkChat {
  modelName : option string;
  model : option Handle;
  initialized : bool
}.

(** Messages published on the host's output channel. *)
Inductive Message : Type :=
| Stream (name text : string) (parentHeader : string)
| ExecuteError (ename evalue : string) (traceback : list string) (parentHeader : string).

(** Interactions with the runtime and with the [onChunk] callback, in
    the order in which they happen (a ghost log). *)
Inductive Call : Type :=
| CallAvailability (h : Handle)
| CallCreateSession (h : Handle)
| CallStreamText (h : Handle) (prompt : string)
| CallOnChunk (chunk : string).

Record State : Type := mkState {
  settingsDefaultModel : option string;  (* [let settingsDefaultModel] *)
  chat : WebLLMChatKernel;               (* [this.chat] *)
  executionCount : nat;                  (* [this.executionCount], kept by [BaseKernel] *)
  parentHeader : string;                 (* [this.parentHeader], kept by [BaseKernel] *)
  iopub : list Message;                  (* what [stream] and [publishExecuteError] sent *)
  windowEvents : list Report;            (* what [window.dispatchEvent] broadcast *)
  calls : list Call
}.

Definition set_settingsDefaultModel (v : option string) (st : State) : State :=
  mkState v (chat st) (executionCount st) (parentHeader st)
          (iopub st) (windowEvents st) (calls st).

Definition set_chat (f : WebLLMChatKernel -> WebLLMChatKernel) (st : State) : State :=
  mkState (settingsDefaultModel st) (f (chat st)) (executionCount st) (parentHeader st)
          (iopub st) (windowEvents st) (calls st).

Definition set_host (count : nat) (header : string) (st : State) : State :=
  mkState (settingsDefaultModel st) (chat st) count header
          (iopub st) (windowEvents st) (calls st).

Definition publish (m : Message) (st : State) : State :=
  mkState (settingsDefaultModel st) (chat st) (executionCount st) (parentHeader st)
          (iopub st ++ [m])%list (windowEvents st) (calls st).

Definition dispatchEvent (r : Report) (st : State) : State :=
  mkState (settingsDefaultModel st) (chat st) (executionCount st) (parentHeader st)
          (iopub st) (windowEvents st ++ [r])%list (calls st).

Definition logCall (c : Call) (st : State) : State :=
  mkState (settingsDefaultModel st) (chat st) (executionCount st) (parentHeader st)
          (iopub st) (windowEvents st) (calls st ++ [c])%list.

(** The state after [new WebLLMLiteKernel(options)], before any
    settings were loaded. *)
Definition newKernel : State :=
  {| settingsDefaultModel := None;
     chat := {| modelName := None; model := None; initialized := false |};
     executionCount := 0;
     parentHeader := "";
     iopub := [];
     windowEvents := [];
     calls := [] |}.

(* ================================================================= *)
(** ** [WebLLMChatKernel] *)

Section ChatKernel.
Context {catalog : ModelCatalog}.

(** [settingsDefaultModel ?? DEFAULT_WEBLLM_MODEL] *)
Definition getDefaultModel (st : State) : string :=
  match settingsDefaultModel st with
  | Some m => m
  | None => DEFAULT_WEBLLM_MODEL
  end.

Definition initializeModel (name : string) : M State unit :=
  if negb (isValidWebLLMModel name) then
    throw (Error ("Invalid model: " ++ name ++ ". Use %ai model to see available models."))
  else
    modify (set_chat (fun k => mkChat (Some name) (model k) (initialized k))) ;;
    modify (set_chat (fun k => mkChat (modelName k) (Some (webLLM name)) (initialized k))) ;;
    modify (set_chat (fun k => mkChat (modelName k) (model k) true)).

Definition setModel (name : string) : M State string :=
  if negb (isValidWebLLMModel name) then
    throw (Error ("Invalid model: " ++ name))
  else
    st <- getState ;;
    let wasInitialized := initialized (chat st) in
    initializeModel name ;;
    if wasInitialized
    then ret ("Model changed to: " ++ name)
    else ret ("Model set to: " ++ name).

Definition getModelName (st : State) : option string := modelName (chat st).

Definition isInitialized (st : State) : bool := initialized (chat st).

(** The progress callback handed to [createSessionWithProgress]. *)
Definition dispatchReports (rs : list Report) : M State unit :=
  modify (fun st => fold_left (fun st r => dispatchEvent r st) rs st).

(** [send] on the handle [model], from the availability check to the
    resolution of [streamText]. *)
Definition converse (rt : Runtime) (model : Handle) (prompt : string)
  : M State TextStream :=
  modify (logCall (CallAvailability model)) ;;
  a <- liftOutcome (availability rt model) ;;
  (match a with
   | unavailable => throw (Error "Browser does not support WebLLM / WebGPU.")
   | downloadable | downloading =>
       modify (logCall (CallCreateSession model)) ;;
       let creation := createSessionWithProgress rt model in
       dispatchReports (reports creation) ;;
       match rejection creation with
       | Some e => throw e
       | None => ret tt
       end
   | available => ret tt
   end) ;;
  modify (logCall (CallStreamText model prompt)) ;;
  liftOutcome (streamText rt model prompt).

(** [send], from its first statement to the resolution of
    [streamText]: the model is initialized first if need be. *)
Definition openStream (rt : Runtime) (prompt : string) : M State TextStream :=
  st <- getState ;;
  (if (negb (initialized (chat st))
       || match model (chat st) with None => true | Some _ => false end)%bool
   then
     let defaultModel := getDefaultModel st in
     initializeModel defaultModel
   else ret tt) ;;
  st <- getState ;;
  match model (chat st) with
  | None => throw (TypeError "Cannot read properties of null (reading 'availability')")
  | Some model => converse rt model prompt
  end.

(** [for await (const chunk of result.textStream) { ... }], with
    [reply] threaded through the iterations. *)
Fixpoint forAwait (onChunk : option (string -> M State unit))
         (chunks : list string) (failure : option Thrown) (reply : string)
  : M State string :=
  match chunks with
  | [] =>
      match failure with
      | Some e => throw e
      | None => ret reply
      end
  | chunk :: rest =>
      let reply := reply ++ chunk in
      (match onChunk with
       | Some f => modify (logCall (CallOnChunk chunk)) ;; f chunk
       | None => ret tt
       end) ;;
      forAwait onChunk rest failure reply
  end.

Definition send (rt : Runtime) (prompt : string)
           (onChunk : option (string -> M State unit)) : M State string :=
  result <- openStream rt prompt ;;
  forAwait onChunk (fragments result) (failure result) "".

End ChatKernel.

(* ================================================================= *)
(** ** [WebLLMLiteKernel] *)

(** The argument of [executeRequest]; [code] is [None] when
    [content.code] is [null] or [undefined]. *)
Record Content : Type := mkContent { code : option string }.

Inductive Reply : Type :=
| ReplyOk (execution_count : nat) (payload : list jsval)
          (user_expressions : list (string * jsval))
| ReplyError (execution_count : nat) (ename evalue : string) (traceback : list string).

Definition status (r : Reply) : string :=
  match r with
  | ReplyOk _ _ _ => "ok"
  | ReplyError _ _ _ _ => "error"
  end.

(** [this.stream({ name, text }, this.parentHeader)] *)
Definition stream (name text : string) : M State unit :=
  modify (fun st => publish (Stream name text (parentHeader st)) st).

(** [this.publishExecuteError({ ename, evalue, traceback }, this.parentHeader)] *)
Definition publishExecuteError (ename evalue : string) (traceback : list string)
  : M State unit :=
  modify (fun st => publish (ExecuteError ename evalue traceback (parentHeader st)) st).

Section LiteKernel.
Context {catalog : ModelCatalog}.
Import JsString.

(** [trimmed.match(/^%ai\s+model\s+(\S+)$/)], returning group 1. *)
Definition modelMatch (trimmed : string) : option string :=
  match stripPrefix "%ai" trimmed with
  | None => None
  | Some r1 =>
      match skipWhiteSpace1 r1 with
      | None => None
      | Some r2 =>
          match stripPrefix "model" r2 with
          | None => None
          | Some r3 =>
              match skipWhiteSpace1 r3 with
              | None => None
              | Some name => if isToken name then Some name else None
              end
          end
      end
  end.

Definition helpText : string :=
  "WebLLM Chat Kernel Magic Commands:" ++ lf ++
  lf ++
  "  %ai model          - Show current model and list available models" ++ lf ++
  "  %ai model <name>   - Switch to a different model" ++ lf ++
  "  %ai help           - Show this help message" ++ lf ++
  lf ++
  "The model is initialized on first cell execution using the default from Settings." ++ lf ++
  "After initialization, use " ++ dq ++ "%ai model <name>" ++ dq ++ " to switch models.".

(** [`${v}`] for [v : string | null] *)
Definition show (v : option string) : string :=
  match v with Some s => s | None => "null" end.

(** [`${err.message}`] *)
Definition showMessage (err : Thrown) : string :=
  match thrown_message err with Some m => m | None => "undefined" end.

Definition modelsText (st : State) : string :=
  let current := getModelName st in
  let status := if isInitialized st
                then "Current model: " ++ show current
                else "Model not yet initialized. Default: " ++ getDefaultModel st in
  let modelList := join (lf ++ "  ") (firstn 20 WEBLLM_MODELS) in
  status ++ lf ++ lf ++
  "Available models (showing first 20 of " ++ ofNat (List.length WEBLLM_MODELS) ++ "):" ++ lf ++
  "  " ++ modelList ++ lf ++
  "  ..." ++ lf ++ lf ++
  "Use " ++ dq ++ "%ai model <name>" ++ dq ++ " to switch models.".

Definition handleMagic (code : string) : M State (option string) :=
  let trimmed := trim code in
  if (String.eqb trimmed "%ai model" || String.eqb trimmed "%ai models")%bool then
    st <- getState ;;
    ret (Some (modelsText st))
  else
    match modelMatch trimmed with
    | Some name =>
        tryCatch
          (result <- setModel name ;; ret (Some result))
          (fun err =>
             throw (Error (showMessage err ++ lf ++ lf ++
                           "Use " ++ dq ++ "%ai model" ++ dq ++ " to see available models.")))
    | None =>
        if (String.eqb trimmed "%ai" || String.eqb trimmed "%ai help")%bool
        then ret (Some helpText)
        else ret None
    end.

(** [err?.message ?? String(err)] *)
Definition failureMessage (err : Thrown) : string :=
  match thrown_message err with
  | Some m => m
  | None => thrown_string err
  end.

Definition executeRequest (rt : Runtime) (content : Content) : M State Reply :=
  let code := match code content with Some c => c | None => "" end in
  tryCatch
    (magicResult <- handleMagic code ;;
     match magicResult with
     | Some text =>
         stream "stdout" (text ++ lf) ;;
         st <- getState ;;
         ret (ReplyOk (executionCount st) [] [])
     | None =>
         send rt code (Some (fun chunk => stream "stdout" chunk)) ;;
         st <- getState ;;
         ret (ReplyOk (executionCount st) [] [])
     end)
    (fun err =>
       let message := failureMessage err in
       publishExecuteError "Error" message [] ;;
       st <- getState ;;
       ret (ReplyError (executionCount st) "Error" message [])).

(** [updateSettings] in [activate], given the value of
    [settings.get("defaultModel").composite] ([None] for [undefined]). *)
Definition updateSettings (composite : option string) : M State unit :=
  match composite with
  | Some model =>
      if (negb (String.eqb model "") && isValidWebLLMModel model)%bool
      then modify (set_settingsDefaultModel (Some model))
      else ret tt
  | None => ret tt
  end.

End LiteKernel.

(* ================================================================= *)
(** ** Sessions: what the host and the user do to one kernel *)

(** The entry points through which the state of a kernel changes.  A
    callback passed to [send] from outside the kernel is seen only by
    whether it returns or throws. *)
Inductive Op : Type :=
| SettingsChanged (composite : option string)
| HostMessage (count : nat) (header : string)
| SetModel (name : string)
| Send (rt : Runtime) (prompt : string) (onChunk : option (string -> Outcome unit))
| ExecuteRequest (rt : Runtime) (content : Content).

Section Sessions.
Context {catalog : ModelCatalog}.

Definition step (op : Op) (st : State) : State :=
  match op with
  | SettingsChanged composite => snd (updateSettings composite st)
  | HostMessage count header => set_host count header st
  | SetModel name => snd (setModel name st)
  | Send rt prompt onChunk =>
      snd (send rt prompt
                (option_map (fun f chunk => liftOutcome (f chunk)) onChunk) st)
  | ExecuteRequest rt content => snd (executeRequest rt content st)
  end.

Definition run (ops : list Op) (st : State) : State :=
  fold_left (fun st op => step op st) ops st.

End Sessions.

(** The fields of a session initialized with [name]. *)
Definition ready (name : string) : WebLLMChatKernel :=
  {| modelName := Some name; model := Some (webLLM name); initialized := true |}.

(** One iteration of the loop of [send] with a callback [f]: the call
    is logged, then [f] runs. *)
Definition deliver (f : string -> M State unit) (st : State) (chunk : string) : State :=
  snd (f chunk (logCall (CallOnChunk chunk) st)).

(** What [handleMagic] appends to the message of a failed switch. *)
Definition hintToList : string :=
  JsString.lf ++ JsString.lf ++ "Use " ++ JsString.dq ++ "%ai model" ++ JsString.dq
  ++ " to see available models.".

(** Since state [st0], state [s] has seen nothing published but
    stdout stream messages, and the host fields are those of [st0]. *)
Definition streamsSince (st0 s : State) : Prop :=
  executionCount s = executionCount st0
  /\ parentHeader s = parentHeader st0
  /\ exists chunks,
       iopub s = (iopub st0 ++ map (fun c => Stream "stdout" c (parentHeader st0)) chunks)%list.

(** A catalog whose designated default is not one of its models. *)
Definition catalogWithoutDefault : ModelCatalog :=
  {| WEBLLM_MODELS := ["A"]; DEFAULT_WEBLLM_MODEL := "Z" |}.

(** What the settings bridge stored, if anything, is in the catalog. *)
Definition settingsValid {catalog : ModelCatalog} (st : State) : Prop :=
  forall m, settingsDefaultModel st = Some m -> In m WEBLLM_MODELS.

(** The session invariant of the data model. *)
Definition consistent (k : WebLLMChatKernel) : Prop :=
  (model k <> None <-> initialized k = true) /\
  (modelName k <> None <-> initialized k = true).

(** The messages published from state [st] on, up to state [st']. *)
Definition published (st st' : State) : list Message :=
  skipn (List.length (iopub st)) (iopub st').

Definition isExecuteError (m : Message) : bool :=
  match m with
  | ExecuteError _ _ _ _ => true
  | Stream _ _ _ => false
  end.

(** The catalog of the scenario in the spec: two models, the first
    one the default. *)
Definition catalogAB : ModelCatalog :=
  {| WEBLLM_MODELS := ["A"; "B"]; DEFAULT_WEBLLM_MODEL := "A" |}.

(** A runtime whose model is ready and streams the given fragments. *)
Definition streaming (frs : list string) : Runtime :=
  {| availability := fun _ => Returned available;
     createSessionWithProgress := fun _ => mkSessionCreation [] None;
     streamText := fun _ _ => Returned (mkTextStream frs None) |}.

(** A runtime on a browser without WebGPU. *)
Definition unsupported : Runtime :=
  {| availability := fun _ => Returned unavailable;
     createSessionWithProgress := fun _ => mkSessionCreation [] None;
     streamText := fun _ _ => Returned (mkTextStream [] None) |}.

(** A shared scope in which every package the plugin asks for is
    present, each in one of the shapes factories come in. *)
Definition hostScope : Federation.Scope :=
  let entry (v : jsval) : Federation.Versions :=
    [("1.0.0", Federation.mkVersion (Some (Returned v)))] in
  [ ("@jupyterlite/kernel",
     entry (VPromise (Returned (VFunction false (Returned
       (VObject [("BaseKernel", VFunction true (Threw (TypeError "Class constructor")));
                 ("IKernelSpecs", VObject [("name", VString "IKernelSpecs")])]))))));
    ("@lumino/widgets", entry (VFunction false (Returned (VObject [("Widget", VNull)]))));
    ("@jupyterlab/apputils", entry (VPromise (Returned (VObject []))));
    ("react", entry (VObject []));
    ("@jupyterlab/ui-components", entry (VObject [("HTMLSelect", VNull)])) ].

(** The scope [importShared] ends up reading: the one stored by
    [init], else the global one. *)
Definition effectiveScope (st : Federation.State) : option Federation.Scope :=
  match Federation.sharedScope st with
  | Some scope => Some scope
  | None => Federation.webpack_share_scopes_default st
  end.

(** The outcome of the factory of the first enumerated version of
    [pkg], when there is one. *)
Definition firstFactory (pkg : string) (scope : Federation.Scope) : option (Outcome jsval) :=
  match Js.lookup pkg scope with
  | Some ((_, version) :: _) => Federation.version_get version
  | _ => None
  end.

(** A value that is neither awaitable nor callable. *)
Definition plain (v : jsval) : bool :=
  (negb (Js.isThenable v) && negb (Js.isFunction v))%bool.

Definition isNullish (v : jsval) : bool :=
  match v with VUndefined | VNull => true | _ => false end.

(** [pkg] resolves in [st] to an object whose properties can be read. *)
Definition resolvesToObject (pkg : string) (st : Federation.State) : bool :=
  match fst (Federation.importShared pkg st) with
  | Returned v => negb (isNullish v)
  | Threw _ => false
  end.

(** What the plugin thunk needs from the host: its five packages
    resolve, those it destructures are not [null] or [undefined], and
    [BaseKernel] can be extended. *)
Definition hostReady (st : Federation.State) : bool :=
  (match fst (Federation.importShared "@jupyterlite/kernel" st) with
   | Returned k =>
       match Js.getProp k "BaseKernel" with
       | Returned b => Js.isSuperclass b
       | Threw _ => false
       end
   | Threw _ => false
   end
   && resolvesToObject "@lumino/widgets" st
   && resolvesToObject "@jupyterlab/apputils" st
   && match fst (Federation.importShared "react" st) with
      | Returned _ => true
      | Threw _ => false
      end
   && resolvesToObject "@jupyterlab/ui-components" st)%bool.

(** The state once [importShared] has settled on [scope]. *)
Definition adopt (scope : Federation.Scope) (st : Federation.State) : Federation.State :=
  {| Federation.sharedScope := Some scope;
     Federation.webpack_share_scopes_default := Federation.webpack_share_scopes_default st |}.

(** The shapes in which a factory hands over the exports of a module:
    as they are, behind a function, behind a promise, or behind a
    promise of a function. *)
Inductive wraps (exports : jsval) : jsval -> Prop :=
| wraps_plain : wraps exports exports
| wraps_function c : wraps exports (VFunction c (Returned exports))
| wraps_promise : wraps exports (VPromise (Returned exports))
| wraps_promise_function c :
    wraps exports (VPromise (Returned (VFunction c (Returned exports)))).

(* ================================================================= *)
(** ** Plugin activation *)

(** The argument of [kernelspecs.register], without its [create]
    function (which is [new WebLLMLiteKernel(options)], see
    [newKernel]). *)
Record KernelSpec : Type := mkKernelSpec {
  spec_name : string;
  spec_display_name : string;
  spec_language : string;
  spec_argv : list string;
  spec_resources : list (string * jsval)
}.

Definition webllmChatSpec : KernelSpec :=
  {| spec_name := "webllm-chat";
     spec_display_name := "WebLLM Chat";
     spec_language := "python";
     spec_argv := [];
     spec_resources := [] |}.

(** What [activate] asked of the host: the calls it made to
    [kernelspecs.register], and whether it went on to listen to
    [webllm:model-progress] events. *)
Record Activation : Type := mkActivation {
  registerCalls : list KernelSpec;
  listening : bool
}.

Section Activate.
Context {catalog : ModelCatalog}.

(** [activate(app, kernelspecs, settingRegistry)].
    - [settingRegistry] is [None] when no registry was injected;
      otherwise it tells how [load] settles and, for loaded settings,
      the value of [get("defaultModel").composite].
    - [kernelspecs] is [None] when [kernelspecs.register] is not a
      function; otherwise it is what the call of [register] does. *)
Definition activate (settingRegistry : option (Outcome (option string)))
           (kernelspecs : option (Outcome unit)) : M State Activation :=
  (match settingRegistry with
   | Some load =>
       tryCatch
         (composite <- liftOutcome load ;;
          updateSettings composite)
         (fun _ => ret tt)
   | None => ret tt
   end) ;;
  match kernelspecs with
  | None => ret {| registerCalls := []; listening := false |}
  | Some register =>
      tryCatch (liftOutcome register) (fun _ => ret tt) ;;
      ret {| registerCalls := [webllmChatSpec]; listening := true |}
  end.

(** A settings value [updateSettings] stores. *)
Definition accepted (composite : option string) : bool :=
  match composite with
  | Some model => (negb (String.eqb model "") && isValidWebLLMModel model)%bool
  | None => false
  end.

End Activate.

(* ================================================================= *)
(** ** The first plugin: model selector and result-publishing kernel

    The same source file holds the earlier form of the plugin
    ([lite-kernel/src/index.ts], [lite-kernel/src/ChatHttpKernel.ts]
    and [lite-kernel/src/federation.ts]): a model selector kept in
    [localStorage], a chat object that takes its model from the
    options or from the page, and a kernel that publishes the whole
    reply as one execute result. *)

(** What the selector and [ChatHttpKernel] share through the page. *)
Record Page : Type := mkPage {
  storedModelId : option string;   (* [localStorage.getItem("webllm:modelId")] *)
  webllmModelId : option string    (* [window.webllmModelId] *)
}.

(** An [<option>] of the selector. *)
Record SelectOption : Type := mkSelectOption {
  option_value : string;
  option_textContent : string;
  option_selected : bool
}.

(** The page after a reload: [localStorage] stays, [window] is new. *)
Definition reload (p : Page) : Page :=
  {| storedModelId := storedModelId p; webllmModelId := None |}.

Section Selector.
Context {catalog : ModelCatalog}.

(** [activate] of [httpChatKernelPlugin] in [index.ts], returning the
    options it put in the selector.  [kernelspecs] is [None] when
    [kernelspecs.register] is not a function, else what the call of
    [register] does (it is not guarded by a [try]). *)
Definition indexActivate (kernelspecs : option (Outcome unit))
  : M Page (list SelectOption) :=
  match kernelspecs with
  | None => ret []
  | Some register =>
      liftOutcome register ;;
      page <- getState ;;
      let saved := match storedModelId page with
                   | Some s => s
                   | None => DEFAULT_WEBLLM_MODEL
                   end in
      let options :=
        map (fun id => {| option_value := id;
                          option_textContent := id;
                          option_selected := String.eqb id saved |})
            WEBLLM_MODELS in
      modify (fun p => {| storedModelId := storedModelId p;
                          webllmModelId := Some saved |}) ;;
      ret options
  end.

(** [select.onchange], [value] being [select.value]. *)
Definition onchange (value : string) : M Page unit :=
  modify (fun p => {| storedModelId := storedModelId p; webllmModelId := Some value |}) ;;
  modify (fun p => {| storedModelId := Some value; webllmModelId := webllmModelId p |}).

End Selector.

(** [ChatHttpKernel] of [lite-kernel/src/ChatHttpKernel.ts]. *)
Record ChatHttpKernel : Type := mkChatHttpKernel {
  http_modelName : string;
  http_model : Handle
}.

(** [new ChatHttpKernel(opts)], [opts_model] being [opts.model]. *)
Definition newChatHttpKernel (opts_model : option string) (page : Page) : ChatHttpKernel :=
  let globalModel := webllmModelId page in
  let name := match opts_model with
              | Some m => m
              | None =>
                  match globalModel with
                  | Some g => g
                  | None => "Llama-3.2-3B-Instruct-q4f16_1-MLC"
                  end
              end in
  {| http_modelName := name; http_model := webLLM name |}.

(** Messages published by [HttpLiteKernel]. *)
Inductive HttpMessage : Type :=
| ExecuteResult (text_plain : string) (execution_count : nat) (parentHeader : string)
| HttpExecuteError (ename evalue : string) (traceback : list string) (parentHeader : string).

(** [HttpLiteKernel] of [lite-kernel/src/federation.ts]: the model
    name of its [ChatHttpKernel], the two fields kept by [BaseKernel],
    what it published and what it asked of the runtime. *)
Record HttpLiteKernel : Type := mkHttpLiteKernel {
  lite_modelName : string;
  lite_executionCount : nat;
  lite_parentHeader : string;
  lite_iopub : list HttpMessage;
  lite_calls : list Call
}.

(** [new HttpLiteKernel(options)], [options_model] being
    [options.model]. *)
Definition newHttpLiteKernel (options_model : option string) : HttpLiteKernel :=
  {| lite_modelName := match options_model with
                       | Some m => m
                       | None => "Llama-3.2-3B-Instruct-q4f16_1-MLC"
                       end;
     lite_executionCount := 0;
     lite_parentHeader := "";
     lite_iopub := [];
     lite_calls := [] |}.

Definition litePublish (m : HttpMessage) (k : HttpLiteKernel) : HttpLiteKernel :=
  mkHttpLiteKernel (lite_modelName k) (lite_executionCount k) (lite_parentHeader k)
                   (lite_iopub k ++ [m])%list (lite_calls k).

Definition liteLogCall (c : Call) (k : HttpLiteKernel) : HttpLiteKernel :=
  mkHttpLiteKernel (lite_modelName k) (lite_executionCount k) (lite_parentHeader k)
                   (lite_iopub k) (lite_calls k ++ [c])%list.

(** [for await (const chunk of result.textStream) { reply += chunk; }] *)
Fixpoint consume (chunks : list string) (failure : option Thrown) (reply : string)
  : Outcome string :=
  match chunks with
  | [] =>
      match failure with
      | Some e => Threw e
      | None => Returned reply
      end
  | chunk :: rest => consume rest failure (reply ++ chunk)
  end.

(** [ChatHttpKernel.send] as inlined in [lite-kernel/src/federation.ts]:
    a handle is built for each call, and the stream is asked for at
    once. *)
Definition liteSend (rt : Runtime) (prompt : string) : M HttpLiteKernel string :=
  k <- getState ;;
  let model := webLLM (lite_modelName k) in
  modify (liteLogCall (CallStreamText model prompt)) ;;
  result <- liftOutcome (streamText rt model prompt) ;;
  liftOutcome (consume (fragments result) (failure result) "").

(** [HttpLiteKernel.executeRequest] *)
Definition liteExecuteRequest (rt : Runtime) (content : Content) : M HttpLiteKernel Reply :=
  let code := match code content with Some c => c | None => "" end in
  tryCatch
    (reply <- liteSend rt code ;;
     modify (fun k => litePublish
                        (ExecuteResult reply (lite_executionCount k) (lite_parentHeader k)) k) ;;
     k <- getState ;;
     ret (ReplyOk (lite_executionCount k) [] []))
    (fun err =>
       let message := match thrown_message err with
                      | Some m => m
                      | None => thrown_string err
                      end in
       modify (fun k => litePublish
                          (HttpExecuteError "Error" message [] (lite_parentHeader k)) k) ;;
       k <- getState ;;
       ret (ReplyError (lite_executionCount k) "Error" message [])).

(* ================================================================= *)
(** ** Notions used in the statements below *)

(** A match of [\s*] against the whole of [s]. *)
Fixpoint allWhiteSpace (s : string) : bool :=
  match s with
  | EmptyString => true
  | String c s' => (JsString.isWhiteSpace c && allWhiteSpace s')%bool
  end.

(** A match of [\s+] against the whole of [s]. *)
Definition isWhiteSpaceRun (s : string) : bool :=
  match s with
  | EmptyString => false
  | String _ _ => allWhiteSpace s
  end.

(** The global share scope replaced by [g], as another bundle of the
    page may do. *)
Definition withGlobal (g : option Federation.Scope) (st : Federation.State)
  : Federation.State :=
  {| Federation.sharedScope := Federation.sharedScope st;
     Federation.webpack_share_scopes_default := g |}.

(** What [importShared] makes of [pkg] once it reads [scope]. *)
Definition resolveIn (pkg : string) (scope : Federation.Scope) : Outcome jsval :=
  match Js.lookup pkg scope with
  | None =>
      Threw (Error (Federation.tag ++ " Shared module " ++ pkg
                      ++ " not found in shared scope. Available: "
                      ++ JsString.join "," (Federation.keys scope)))
  | Some [] => Threw (Error (Federation.tag ++ " No versions available for " ++ pkg))
  | Some ((_, version) :: _) =>
      match Federation.version_get version with
      | None => Threw (Error (Federation.tag ++ " Module " ++ pkg ++ " has no factory function"))
      | Some (Threw e) => Threw e
      | Some (Returned result) =>
          match Federation.awaitIfThenable result with
          | Threw e => Threw e
          | Returned result' => Federation.callIfFunction result'
          end
      end
  end.

(** The token the host provides for [IKernelSpecs], and the optional
    capabilities the plugin asks for. *)
Definition providedKernelSpecs (st : Federation.State) : jsval :=
  match fst (Federation.importShared "@jupyterlite/kernel" st) with
  | Returned k =>
      match Js.getProp k "IKernelSpecs" with
      | Returned x => x
      | Threw _ => VUndefined
      end
  | Threw _ => VUndefined
  end.

Definition providedSettingRegistry (st : Federation.State) : list jsval :=
  match fst (Federation.importShared "@jupyterlab/settingregistry" st) with
  | Returned m =>
      match Js.getProp m "ISettingRegistry" with
      | Returned t => if Js.truthy t then [t] else []
      | Threw _ => []
      end
  | Threw _ => []
  end.

(** A runtime whose model has yet to be downloaded: the creation of
    the session reports [rs] and settles as [rejection] says, and the
    model then streams [frs]. *)
Definition fetching (rs : list Report) (rejection : option Thrown) (frs : list string)
  : Runtime :=
  {| availability := fun _ => Returned downloadable;
     createSessionWithProgress := fun _ => mkSessionCreation rs rejection;
     streamText := fun _ _ => Returned (mkTextStream frs None) |}.

(** A runtime whose model is ready and whose stream yields [frs] and
    then fails with [e]. *)
Definition breaking (frs : list string) (e : Thrown) : Runtime :=
  {| availability := fun _ => Returned available;
     createSessionWithProgress := fun _ => mkSessionCreation [] None;
     streamText := fun _ _ => Returned (mkTextStream frs (Some e)) |}.

(** The [execution_count] field of a reply. *)
Definition executionCountOf (r : Reply) : nat :=
  match r with
  | ReplyOk n _ _ => n
  | ReplyError n _ _ _ => n
  end.

(** Between [st] and [st'] the host's fields and the settings default
    are the same, and the three logs have only grown. *)
Definition extends (st st' : State) : Prop :=
  executionCount st' = executionCount st
  /\ parentHeader st' = parentHeader st
  /\ settingsDefaultModel st' = settingsDefaultModel st
  /\ (exists l, iopub st' = (iopub st ++ l)%list)
  /\ (exists l, calls st' = (calls st ++ l)%list)
  /\ (exists l, windowEvents st' = (windowEvents st ++ l)%list).

(** The stdout stream messages for [chunks], under parent header [hdr]. *)
Definition stdoutOf (hdr : string) (chunks : list string) : list Message :=
  map (fun c => Stream "stdout" c hdr) chunks.

(* ================================================================= *)
(** * Properties *)

(** ** The monad *)

Lemma bind_returned {S A B} (m : M S A) (k : A -> M S B) s a s' :
  m s = (Returned a, s') -> bind m k s = k a s'.
Proof. intros H. unfold bind. rewrite H. reflexivity. Qed.

Lemma bind_threw {S A B} (m : M S A) (k : A -> M S B) s e s' :
  m s = (Threw e, s') -> bind m k s = (Threw e, s').
Proof. intros H. unfold bind. rewrite H. reflexivity. Qed.

Lemma preserves_ret {S A} (P : S -> Prop) (a : A) : preserves P (ret a).
Proof. intros s H. exact H. Qed.

Lemma preserves_throw {S A} (P : S -> Prop) e : preserves P (@throw S A e).
Proof. intros s H. exact H. Qed.

Lemma preserves_getState {S} (P : S -> Prop) : preserves P getState.
Proof. intros s H. exact H. Qed.

Lemma preserves_liftOutcome {S A} (P : S -> Prop) (o : Outcome A) :
  preserves P (liftOutcome o).
Proof. intros s H. exact H. Qed.

Lemma preserves_modify {S} (P : S -> Prop) (f : S -> S) :
  (forall s, P s -> P (f s)) -> preserves P (modify f).
Proof. intros Hf s H. simpl. auto. Qed.

Lemma preserves_bind {S A B} (P : S -> Prop) (m : M S A) (k : A -> M S B) :
  preserves P m -> (forall a, preserves P (k a)) -> preserves P (bind m k).
Proof.
  intros Hm Hk s H. unfold bind.
  specialize (Hm s H). destruct (m s) as [[a | e] s']; simpl in *.
  - apply Hk. exact Hm.
  - exact Hm.
Qed.

Lemma preserves_tryCatch {S A} (P : S -> Prop) (m : M S A) (h : Thrown -> M S A) :
  preserves P m -> (forall e, preserves P (h e)) -> preserves P (tryCatch m h).
Proof.
  intros Hm Hh s H. unfold tryCatch.
  specialize (Hm s H). destruct (m s) as [[a | e] s']; simpl in *.
  - exact Hm.
  - apply Hh. exact Hm.
Qed.

Create HintDb preserves.
#[local] Hint Resolve preserves_ret preserves_throw preserves_getState
  preserves_liftOutcome : preserves.

(** ** The shared-registry resolver *)

Section Resolver.
Import Federation.

(** With a scope at hand and a factory for the first version,
    [importShared] is the factory followed by the two unwrap steps. *)
Lemma importShared_body_unwraps pkg st scope factory :
  effectiveScope st = Some scope ->
  firstFactory pkg scope = Some factory ->
  importShared_body pkg st =
    (match factory with
     | Returned result =>
         match awaitIfThenable result with
         | Returned result' => callIfFunction result'
         | Threw e => Threw e
         end
     | Threw e => Threw e
     end, adopt scope st).
Proof.
  unfold effectiveScope, firstFactory, importShared_body. intros Hs Hf.
  destruct st as [shared glob]; simpl in *.
  assert (Hlk : exists k ver rest,
             Js.lookup pkg scope = Some ((k, ver) :: rest)
             /\ version_get ver = Some factory).
  { destruct (Js.lookup pkg scope) as [[| [k ver] rest] |]; try discriminate.
    exists k, ver, rest. split; [reflexivity | exact Hf]. }
  destruct Hlk as (k & ver & rest & Hlk & Hget).
  destruct shared as [sc |].
  - injection Hs as ->. unfold bind, getState, ret, adopt. simpl.
    rewrite Hlk, Hget. unfold liftOutcome.
    destruct factory as [result | e]; [| reflexivity].
    destruct (awaitIfThenable result) as [result' | e]; [| reflexivity].
    destruct (callIfFunction result'); reflexivity.
  - subst glob. unfold bind, getState, ret, modify, adopt. simpl.
    rewrite Hlk, Hget. unfold liftOutcome.
    destruct factory as [result | e]; [| reflexivity].
    destruct (awaitIfThenable result) as [result' | e]; [| reflexivity].
    destruct (callIfFunction result'); reflexivity.
Qed.

Lemma unwrap_wrapped exports result :
  plain exports = true ->
  wraps exports result ->
  match awaitIfThenable result with
  | Returned result' => callIfFunction result'
  | Threw e => Threw e
  end = Returned exports
  /\ Js.await exports = Returned exports.
Proof.
  intros Hp Hw. unfold plain in Hp.
  apply andb_prop in Hp. destruct Hp as [Ht Hf].
  apply negb_true_iff in Ht. apply negb_true_iff in Hf.
  assert (Ha : Js.await exports = Returned exports).
  { destruct exports as [ | | | | | | o]; try reflexivity. discriminate Ht. }
  assert (Hc : callIfFunction exports = Returned exports).
  { unfold callIfFunction. rewrite Hf. reflexivity. }
  split; [| exact Ha].
  inversion Hw; subst; unfold awaitIfThenable; simpl.
  - rewrite Ht. exact Hc.
  - reflexivity.
  - rewrite Ha. exact Hc.
  - reflexivity.
Qed.

(** C2. When the first enumerated version of [pkg] has a factory,
    [importShared] applies exactly two unwrap steps to what the
    factory returns, in this order: await it if it is thenable, then
    call it if it is a function.  Hence exports handed over plainly,
    behind a function, behind a promise or behind a promise of a
    function all resolve to the same exports, and a plain value is
    returned unchanged. *)
Theorem importShared_normalizes
        (pkg : string) (st : Federation.State) (scope : Scope) (result : jsval) :
  effectiveScope st = Some scope ->
  firstFactory pkg scope = Some (Returned result) ->
  importShared_body pkg st =
    (match awaitIfThenable result with
     | Returned result' => callIfFunction result'
     | Threw e => Threw e
     end, adopt scope st)
  /\ (forall exports, plain exports = true -> wraps exports result ->
        importShared_body pkg st = (Returned exports, adopt scope st)
        /\ importShared pkg st = (Returned exports, adopt scope st))
  /\ (plain result = true ->
        importShared pkg st = (Returned result, adopt scope st)).
Proof.
  intros Hs Hf.
  pose proof (importShared_body_unwraps pkg st scope _ Hs Hf) as Hbody.
  simpl in Hbody.
  assert (Hw : forall exports, plain exports = true -> wraps exports result ->
               importShared_body pkg st = (Returned exports, adopt scope st)
               /\ importShared pkg st = (Returned exports, adopt scope st)).
  { intros exports Hp Hw.
    destruct (unwrap_wrapped exports result Hp Hw) as [Hu Ha].
    rewrite Hu in Hbody. split; [exact Hbody |].
    unfold importShared. rewrite (bind_returned _ _ _ _ _ Hbody).
    unfold liftOutcome. rewrite Ha. reflexivity. }
  split; [exact Hbody |]. split; [exact Hw |].
  intros Hp. apply (Hw result Hp). constructor.
Qed.

Lemma importShared_normalizes_witness :
  let st := {| sharedScope := None; webpack_share_scopes_default := Some hostScope |} in
  let exports :=
    VObject [("BaseKernel", VFunction true (Threw (TypeError "Class constructor")));
             ("IKernelSpecs", VObject [("name", VString "IKernelSpecs")])] in
  importShared "@jupyterlite/kernel" st = (Returned exports, adopt hostScope st).
Proof.
  intros st exports.
  destruct (importShared_normalizes "@jupyterlite/kernel" st hostScope
              (VPromise (Returned (VFunction false (Returned exports))))
              eq_refl eq_refl) as [_ [Hshapes _]].
  apply (Hshapes exports).
  - reflexivity.
  - apply wraps_promise_function.
Defined.

End Resolver.

(** ** The container *)

Section Container.
Import Federation.

Lemma importShared_body_settles pkg st scope :
  effectiveScope st = Some scope ->
  exists o, importShared_body pkg st = (o, adopt scope st)
            /\ importShared_body pkg (adopt scope st) = (o, adopt scope st).
Proof.
  intros Hs. unfold effectiveScope in Hs.
  destruct st as [shared glob]. simpl in Hs.
  unfold importShared_body, adopt, bind, getState, ret, modify, throw, liftOutcome.
  simpl.
  destruct shared as [sc |]; [injection Hs as -> | subst glob]; simpl.
  - destruct (Js.lookup pkg scope) as [[| [k ver] rest] |]; eauto.
    destruct (version_get ver) as [[result | e] |]; eauto.
    destruct (awaitIfThenable result) as [result' | e]; eauto.
    destruct (callIfFunction result'); eauto.
  - destruct (Js.lookup pkg scope) as [[| [k ver] rest] |]; eauto.
    destruct (version_get ver) as [[result | e] |]; eauto.
    destruct (awaitIfThenable result) as [result' | e]; eauto.
    destruct (callIfFunction result'); eauto.
Qed.

Lemma importShared_settles pkg st scope :
  effectiveScope st = Some scope ->
  exists o, importShared pkg st = (o, adopt scope st)
            /\ importShared pkg (adopt scope st) = (o, adopt scope st).
Proof.
  intros Hs.
  destruct (importShared_body_settles pkg st scope Hs) as (o & H1 & H2).
  unfold importShared, bind, liftOutcome. rewrite H1, H2.
  destruct o as [v | e]; eauto.
Qed.

Lemma importShared_needs_scope pkg st :
  effectiveScope st = None -> exists e, importShared pkg st = (Threw e, st).
Proof.
  intros Hs. unfold effectiveScope in Hs.
  destruct st as [[sc |] [g |]]; simpl in Hs; try discriminate.
  eexists. reflexivity.
Qed.

(** Whatever the thunk returns has the shape the loader expects. *)
Lemma pluginModule_shape st exports st' :
  pluginModule st = (Returned exports, st') ->
  __esModule exports = true /\ List.length (default exports) = 1.
Proof.
  unfold pluginModule. intros H.
  repeat (unfold bind at 1 in H;
          match type of H with
          | context [match ?m ?s with _ => _ end] =>
              destruct (m s) as [[? | ?] ?]; try discriminate H
          end).
  unfold ret in H. injection H as <- _. split; reflexivity.
Qed.

Lemma getProp_object v k :
  isNullish v = false -> exists x, Js.getProp v k = Returned x.
Proof.
  destruct v; simpl; intros H; try discriminate; eauto.
  destruct (Js.lookup k props); eauto.
Qed.

(** On a host that provides what the thunk needs, the thunk returns. *)
Lemma pluginModule_returns st :
  hostReady st = true ->
  exists exports st', pluginModule st = (Returned exports, st').
Proof.
  unfold hostReady, resolvesToObject. intros H.
  destruct (effectiveScope st) as [scope |] eqn:Hs.
  2:{ destruct (importShared_needs_scope "@jupyterlite/kernel" st Hs) as [e He].
      rewrite He in H. discriminate H. }
  destruct (importShared_settles "@jupyterlite/kernel" st scope Hs) as (o1 & K1 & _).
  destruct (importShared_settles "@lumino/widgets" st scope Hs) as (o2 & K2 & K2').
  destruct (importShared_settles "@jupyterlab/apputils" st scope Hs) as (o3 & K3 & K3').
  destruct (importShared_settles "react" st scope Hs) as (o4 & K4 & K4').
  destruct (importShared_settles "@jupyterlab/ui-components" st scope Hs) as (o5 & K5 & K5').
  destruct (importShared_settles "@jupyterlab/settingregistry" st scope Hs) as (o6 & _ & K6').
  rewrite K1, K2, K3, K4, K5 in H. simpl in H.
  repeat (apply andb_prop in H; destruct H as [H ?]).
  destruct o1 as [v1 | ?]; [| discriminate].
  destruct o2 as [v2 | ?]; [| discriminate].
  destruct o3 as [v3 | ?]; [| discriminate].
  destruct o4 as [v4 | ?]; [| discriminate].
  destruct o5 as [v5 | ?]; [| discriminate].
  destruct (Js.getProp v1 "BaseKernel") as [b |] eqn:Hb; [| discriminate].
  assert (Hn1 : isNullish v1 = false) by (destruct v1; simpl in Hb; try discriminate; reflexivity).
  destruct (getProp_object v1 "IKernelSpecs" Hn1) as [specs Hspecs].
  repeat match goal with
         | Hn : negb (isNullish ?v) = true |- _ => apply negb_true_iff in Hn
         end.
  destruct (getProp_object v2 "Widget") as [x2 Hx2]; [assumption |].
  destruct (getProp_object v3 "ReactWidget") as [x3 Hx3]; [assumption |].
  destruct (getProp_object v5 "HTMLSelect") as [x5 Hx5]; [assumption |].
  unfold pluginModule.
  rewrite (bind_returned _ _ _ _ _ K1).
  unfold liftOutcome at 1. unfold bind at 1. rewrite Hb.
  unfold liftOutcome at 1. unfold bind at 1. rewrite Hspecs.
  rewrite (bind_returned _ _ _ _ _ K2').
  unfold liftOutcome at 1. unfold bind at 1. rewrite Hx2.
  rewrite (bind_returned _ _ _ _ _ K3').
  unfold liftOutcome at 1. unfold bind at 1. rewrite Hx3.
  rewrite (bind_returned _ _ _ _ _ K4').
  rewrite (bind_returned _ _ _ _ _ K5').
  unfold liftOutcome at 1. unfold bind at 1. rewrite Hx5.
  rewrite H. unfold bind at 1, ret at 1.
  unfold bind at 1, tryCatch at 1, bind at 1. rewrite K6'.
  destruct o6 as [v6 | e6].
  - unfold liftOutcome.
    destruct (Js.getProp v6 "ISettingRegistry"); unfold ret; eauto.
  - unfold ret. eauto.
Qed.

(** C5. [container.get] recognizes exactly ["./index"] and
    ["./extension"]: for these it returns the plugin thunk, for every
    other module id it fails with an unknown-module error.  Whatever
    the thunk returns carries [__esModule: true] and a [default] array
    with one plugin descriptor (so of length at least one), and on a
    host that provides the packages the plugin requires the thunk does
    return. *)
Theorem container_get_two_modules (module : string) (st : Federation.State) :
  ((module = "./index" \/ module = "./extension") ->
     Federation.get module st = (Returned pluginModule, st))
  /\ (module <> "./index" -> module <> "./extension" ->
        Federation.get module st =
          (Threw (Error ("[webllm-chat-kernel/federation] Unknown module: " ++ module)), st))
  /\ (forall exports st', pluginModule st = (Returned exports, st') ->
        __esModule exports = true /\ 1 <= List.length (default exports))
  /\ (hostReady st = true ->
        exists exports st',
          pluginModule st = (Returned exports, st')
          /\ __esModule exports = true /\ 1 <= List.length (default exports)).
Proof.
  split; [| split; [| split]].
  - intros [-> | ->]; reflexivity.
  - intros H1 H2. unfold Federation.get.
    apply String.eqb_neq in H1. apply String.eqb_neq in H2.
    rewrite H1, H2. reflexivity.
  - intros exports st' H.
    destruct (pluginModule_shape _ _ _ H) as [He Hd]. rewrite Hd. auto.
  - intros H. destruct (pluginModule_returns st H) as (exports & st' & Hrun).
    exists exports, st'. split; [exact Hrun |].
    destruct (pluginModule_shape _ _ _ Hrun) as [He Hd]. rewrite Hd. auto.
Qed.

Lemma container_get_two_modules_witness :
  let st := {| sharedScope := Some hostScope; webpack_share_scopes_default := None |} in
  Federation.get "./extension" st = (Returned pluginModule, st)
  /\ Federation.get "./plugin" st =
       (Threw (Error "[webllm-chat-kernel/federation] Unknown module: ./plugin"), st)
  /\ exists exports st',
       pluginModule st = (Returned exports, st')
       /\ __esModule exports = true /\ 1 <= List.length (default exports).
Proof.
  intros st.
  split; [| split].
  - apply (proj1 (container_get_two_modules "./extension" st)). right. reflexivity.
  - apply (proj1 (proj2 (container_get_two_modules "./plugin" st))); discriminate.
  - apply (proj2 (proj2 (proj2 (container_get_two_modules "./index" st)))).
    reflexivity.
Defined.

End Container.

(** ** Strings *)

Lemma append_nil_r (s : string) : s ++ "" = s.
Proof. induction s as [| c s IH]; simpl; [reflexivity | rewrite IH; reflexivity]. Qed.

Lemma append_assoc (a b c : string) : (a ++ b) ++ c = a ++ (b ++ c).
Proof. induction a as [| x a IH]; simpl; [reflexivity | rewrite IH; reflexivity]. Qed.

Lemma concat_nosep_cons (c : string) (rest : list string) :
  String.concat "" (c :: rest) = c ++ String.concat "" rest.
Proof.
  destruct rest as [| d rest]; simpl.
  - symmetry. apply append_nil_r.
  - reflexivity.
Qed.

Lemma stripPrefix_app (s r : string) : JsString.stripPrefix s (s ++ r) = Some r.
Proof.
  induction s as [| c s IH]; simpl; [reflexivity |].
  rewrite Ascii.eqb_refl. exact IH.
Qed.

Lemma includes_prefix (s r : string) : JsString.includes s (s ++ r) = true.
Proof.
  pose proof (stripPrefix_app s r) as H.
  destruct (s ++ r) as [| c h]; cbn [JsString.includes]; rewrite H; reflexivity.
Qed.

Lemma includes_skip (p s h : string) :
  JsString.includes s h = true -> JsString.includes s (p ++ h) = true.
Proof.
  intros H. induction p as [| c p IH]; [exact H |].
  cbn [append JsString.includes].
  destruct (JsString.stripPrefix s (String c (p ++ h))); [reflexivity | exact IH].
Qed.

Lemma includes_middle (p s r : string) : JsString.includes s (p ++ s ++ r) = true.
Proof. apply includes_skip. apply includes_prefix. Qed.

(** ** The model session *)

Section ChatKernelFacts.
Context {catalog : ModelCatalog}.

Lemma initializeModel_valid name st :
  isValidWebLLMModel name = true ->
  initializeModel name st = (Returned tt, set_chat (fun _ => ready name) st).
Proof.
  intros H. unfold initializeModel. rewrite H. reflexivity.
Qed.

Lemma initializeModel_invalid name st :
  isValidWebLLMModel name = false ->
  initializeModel name st =
    (Threw (Error ("Invalid model: " ++ name ++ ". Use %ai model to see available models.")),
     st).
Proof.
  intros H. unfold initializeModel. rewrite H. reflexivity.
Qed.

Lemma setModel_valid name st :
  isValidWebLLMModel name = true ->
  setModel name st =
    (Returned (if initialized (chat st)
               then "Model changed to: " ++ name
               else "Model set to: " ++ name),
     set_chat (fun _ => ready name) st).
Proof.
  intros H. unfold setModel. rewrite H. simpl.
  unfold bind, getState. rewrite (initializeModel_valid name st H).
  destruct (initialized (chat st)); reflexivity.
Qed.

Lemma setModel_invalid name st :
  isValidWebLLMModel name = false ->
  setModel name st = (Threw (Error ("Invalid model: " ++ name)), st).
Proof.
  intros H. unfold setModel. rewrite H. reflexivity.
Qed.

Lemma forAwait_returns f frs reply st :
  (forall c s, fst (f c s) = Returned tt) ->
  forAwait (Some f) frs None reply st =
    (Returned (reply ++ String.concat "" frs), fold_left (deliver f) frs st).
Proof.
  intros Hf. revert reply st.
  induction frs as [| c rest IH]; intros reply st.
  - simpl. rewrite append_nil_r. reflexivity.
  - rewrite concat_nosep_cons, <- append_assoc.
    cbn [forAwait fold_left]. unfold bind at 1. unfold bind at 1.
    unfold modify at 1. unfold deliver at 2.
    specialize (Hf c (logCall (CallOnChunk c) st)).
    destruct (f c (logCall (CallOnChunk c) st)) as [o s']. simpl in Hf. subst o.
    simpl. apply IH.
Qed.

Lemma deliver_calls f frs st :
  (forall c s, calls (snd (f c s)) = calls s) ->
  calls (fold_left (deliver f) frs st) = (calls st ++ map CallOnChunk frs)%list.
Proof.
  intros Hf. revert st.
  induction frs as [| c rest IH]; intros st; simpl.
  - rewrite app_nil_r. reflexivity.
  - rewrite IH. unfold deliver. rewrite Hf. simpl.
    rewrite <- app_assoc. reflexivity.
Qed.

(** C1. When [send] gets as far as the stream and the stream ends
    normally after the fragments [frs], [send] invokes [onChunk] once
    per fragment, in stream order and before it returns, and returns
    the concatenation of the arguments of these invocations. *)
Theorem send_streams_in_order
        (rt : Runtime) (prompt : string) (onChunk : string -> M State unit)
        (st st1 : State) (frs : list string) :
  openStream rt prompt st = (Returned (mkTextStream frs None), st1) ->
  (forall c s, fst (onChunk c s) = Returned tt) ->
  (forall c s, calls (snd (onChunk c s)) = calls s) ->
  exists st2,
    send rt prompt (Some onChunk) st = (Returned (String.concat "" frs), st2)
    /\ st2 = fold_left (deliver onChunk) frs st1
    /\ calls st2 = (calls st1 ++ map CallOnChunk frs)%list.
Proof.
  intros Hopen Hret Hframe.
  exists (fold_left (deliver onChunk) frs st1).
  split; [| split].
  - unfold send. rewrite (bind_returned _ _ _ _ _ Hopen). simpl.
    apply (forAwait_returns onChunk frs "" st1 Hret).
  - reflexivity.
  - apply deliver_calls. exact Hframe.
Qed.

End ChatKernelFacts.

Lemma send_streams_in_order_witness :
  exists st2,
    @send models_ts (streaming ["He"; "llo"]) "Hi" (Some (stream "stdout")) newKernel
      = (Returned "Hello", st2)
    /\ calls st2 =
         [ CallAvailability (webLLM "Llama-3.2-3B-Instruct-q4f16_1-MLC");
           CallStreamText (webLLM "Llama-3.2-3B-Instruct-q4f16_1-MLC") "Hi";
           CallOnChunk "He"; CallOnChunk "llo" ]
    /\ iopub st2 = [Stream "stdout" "He" ""; Stream "stdout" "llo" ""].
Proof.
  destruct (@send_streams_in_order models_ts (streaming ["He"; "llo"]) "Hi"
              (stream "stdout") newKernel _ ["He"; "llo"] eq_refl
              (fun _ _ => eq_refl) (fun _ _ => eq_refl))
    as (st2 & Hsend & Hst & Hcalls).
  exists st2. split; [exact Hsend |]. split.
  - exact Hcalls.
  - rewrite Hst. reflexivity.
Defined.

(** ** Trimming and the [%ai model <name>] pattern *)

Section Tokens.
Import JsString.

Lemma trimEnd_allNonWhiteSpace s :
  allNonWhiteSpace s = true -> trimEnd s = s.
Proof.
  induction s as [| c s IH]; simpl; [reflexivity |].
  intros H. apply andb_prop in H. destruct H as [Hc Hs].
  rewrite (IH Hs). apply negb_true_iff in Hc. rewrite Hc.
  destruct s; reflexivity.
Qed.

Lemma trimEnd_before_token p name :
  isToken name = true -> trimEnd (p ++ name) = p ++ name.
Proof.
  intros Ht. destruct name as [| c name]; [discriminate |].
  unfold isToken in Ht.
  induction p as [| a p IH].
  - apply trimEnd_allNonWhiteSpace. exact Ht.
  - cbn [append trimEnd]. rewrite IH.
    destruct p; reflexivity.
Qed.

Lemma trimStart_token name : isToken name = true -> trimStart name = name.
Proof.
  destruct name as [| c name]; [discriminate |].
  simpl. intros H. apply andb_prop in H. destruct H as [Hc _].
  apply negb_true_iff in Hc. rewrite Hc. reflexivity.
Qed.

Lemma trim_model_command name :
  isToken name = true -> trim ("%ai model " ++ name) = "%ai model " ++ name.
Proof.
  intros Ht. unfold trim.
  change (trimStart ("%ai model " ++ name)) with ("%ai model " ++ name).
  apply trimEnd_before_token. exact Ht.
Qed.

Lemma modelMatch_model_command name :
  isToken name = true -> modelMatch ("%ai model " ++ name) = Some name.
Proof.
  intros Ht.
  change (modelMatch ("%ai model " ++ name))
    with (if isToken (trimStart name) then Some (trimStart name) else None).
  rewrite (trimStart_token name Ht). rewrite Ht. reflexivity.
Qed.

Lemma model_command_is_not_listing name :
  isToken name = true ->
  (String.eqb ("%ai model " ++ name) "%ai model"
   || String.eqb ("%ai model " ++ name) "%ai models")%bool = false.
Proof.
  destruct name as [| c name]; [discriminate |]. intros _. reflexivity.
Qed.

End Tokens.

(** ** The magic command interpreter *)

Section Magics.
Context {catalog : ModelCatalog}.
Import JsString.

Lemma isValidWebLLMModel_true name :
  isValidWebLLMModel name = true <-> In name WEBLLM_MODELS.
Proof.
  unfold isValidWebLLMModel. rewrite existsb_exists. split.
  - intros (x & Hin & Heq). apply String.eqb_eq in Heq. subst x. exact Hin.
  - intros Hin. exists name. split; [exact Hin | apply String.eqb_refl].
Qed.

Lemma isValidWebLLMModel_false name :
  isValidWebLLMModel name = false <-> ~ In name WEBLLM_MODELS.
Proof.
  rewrite <- isValidWebLLMModel_true.
  destruct (isValidWebLLMModel name); split; intros H; try reflexivity;
    try discriminate; try (intros H'; discriminate). exfalso. apply H. reflexivity.
Qed.

(** The three ways in which [handleMagic] returns a text. *)
Lemma handleMagic_cases c st text st1 :
  handleMagic c st = (Returned (Some text), st1) ->
  (st1 = st /\ (trim c = "%ai model" \/ trim c = "%ai models")
   /\ text = modelsText st)
  \/ (exists name,
         modelMatch (trim c) = Some name /\ isValidWebLLMModel name = true
         /\ st1 = set_chat (fun _ => ready name) st
         /\ text = if initialized (chat st)
                   then "Model changed to: " ++ name
                   else "Model set to: " ++ name)
  \/ (st1 = st /\ (trim c = "%ai" \/ trim c = "%ai help") /\ text = helpText).
Proof.
  unfold handleMagic. intros H.
  destruct (String.eqb (trim c) "%ai model" || String.eqb (trim c) "%ai models")%bool
    eqn:Hlist.
  - left. apply orb_prop in Hlist.
    unfold bind, getState, ret in H. injection H as <- <-.
    split; [reflexivity |]. split; [| reflexivity].
    destruct Hlist as [Hl | Hl]; apply String.eqb_eq in Hl; auto.
  - destruct (modelMatch (trim c)) as [name |] eqn:Hm.
    + right. left. exists name. split; [reflexivity |].
      unfold tryCatch, bind in H.
      destruct (isValidWebLLMModel name) eqn:Hv.
      * rewrite (setModel_valid name st Hv) in H. unfold ret in H.
        injection H as <- <-. auto.
      * rewrite (setModel_invalid name st Hv) in H. discriminate H.
    + right. right.
      destruct (String.eqb (trim c) "%ai" || String.eqb (trim c) "%ai help")%bool
        eqn:Hhelp; [| discriminate H].
      unfold ret in H. injection H as <- <-.
      split; [reflexivity |]. split; [| reflexivity].
      apply orb_prop in Hhelp.
      destruct Hhelp as [Hh | Hh]; apply String.eqb_eq in Hh; auto.
Qed.

Lemma handleMagic_none c st st1 :
  handleMagic c st = (Returned None, st1) -> st1 = st.
Proof.
  unfold handleMagic. intros H.
  destruct (String.eqb (trim c) "%ai model" || String.eqb (trim c) "%ai models")%bool.
  - discriminate H.
  - destruct (modelMatch (trim c)) as [name |].
    + unfold tryCatch, bind in H.
      destruct (setModel name st) as [[r | e] s']; discriminate H.
    + destruct (String.eqb (trim c) "%ai" || String.eqb (trim c) "%ai help")%bool;
        [discriminate H |].
      unfold ret in H. injection H as <-. reflexivity.
Qed.

Lemma handleMagic_invalid_model name st :
  isToken name = true ->
  isValidWebLLMModel name = false ->
  handleMagic ("%ai model " ++ name) st =
    (Threw (Error ("Invalid model: " ++ name ++ hintToList)), st).
Proof.
  intros Ht Hv. unfold handleMagic.
  rewrite (trim_model_command name Ht).
  rewrite (model_command_is_not_listing name Ht).
  rewrite (modelMatch_model_command name Ht).
  unfold tryCatch, bind. rewrite (setModel_invalid name st Hv).
  reflexivity.
Qed.

(** C3. For a name (a single token without white space) that is not
    in the catalog, [%ai model <name>] fails with the invalid-model
    error, whose message ends with the hint to list the models, and
    leaves the session as it was: [executeRequest] reports the error
    and changes nothing but the host's output, so [getModelName()],
    the model handle and the initialized flag keep their values. *)
Theorem invalid_model_magic_keeps_session
        (rt : Runtime) (name : string) (st : State) :
  isToken name = true ->
  ~ In name WEBLLM_MODELS ->
  let message :=
    "Invalid model: " ++ name ++ lf ++ lf ++
    "Use " ++ dq ++ "%ai model" ++ dq ++ " to see available models." in
  handleMagic ("%ai model " ++ name) st = (Threw (Error message), st)
  /\ includes ("Use " ++ dq ++ "%ai model" ++ dq ++ " to see available models.")
              message = true
  /\ exists st',
       executeRequest rt (mkContent (Some ("%ai model " ++ name))) st =
         (Returned (ReplyError (executionCount st) "Error" message []), st')
       /\ st' = publish (ExecuteError "Error" message [] (parentHeader st)) st
       /\ getModelName st' = getModelName st
       /\ model (chat st') = model (chat st)
       /\ isInitialized st' = isInitialized st.
Proof.
  intros Ht Hnot message.
  apply isValidWebLLMModel_false in Hnot.
  pose proof (handleMagic_invalid_model name st Ht Hnot) as Hm.
  change ("Invalid model: " ++ name ++ hintToList) with message in Hm.
  split; [exact Hm |]. split.
  - subst message.
    replace ("Invalid model: " ++ name ++ lf ++ lf ++
             "Use " ++ dq ++ "%ai model" ++ dq ++ " to see available models.")
      with (("Invalid model: " ++ name ++ lf ++ lf) ++
            ("Use " ++ dq ++ "%ai model" ++ dq ++ " to see available models.") ++ "").
    + apply includes_middle.
    + rewrite append_nil_r, !append_assoc. reflexivity.
  - eexists. split; [| split; [reflexivity |]].
    + unfold executeRequest. cbn [code]. unfold tryCatch.
      rewrite (bind_threw _ _ _ _ _ Hm). reflexivity.
    + repeat split.
Qed.

End Magics.

Lemma invalid_model_magic_keeps_session_witness :
  let st := snd (@setModel models_ts "Mistral-7B-Instruct-v0.3-q4f16_1-MLC" newKernel) in
  let st' := snd (@executeRequest models_ts unsupported
                    (mkContent (Some "%ai model gpt-4")) st) in
  getModelName st' = Some "Mistral-7B-Instruct-v0.3-q4f16_1-MLC"
  /\ model (chat st') = Some (webLLM "Mistral-7B-Instruct-v0.3-q4f16_1-MLC")
  /\ isInitialized st' = true.
Proof.
  intros st st'.
  destruct (@invalid_model_magic_keeps_session models_ts unsupported "gpt-4" st)
    as (_ & _ & st'' & Hrun & _ & Hname & Hmodel & Hinit).
  - reflexivity.
  - simpl. intuition discriminate.
  - assert (E : st' = st'') by exact (f_equal snd Hrun).
    rewrite E, Hname, Hmodel, Hinit. repeat split.
Defined.

Section MagicClaims.
Context {catalog : ModelCatalog}.
Import JsString.

Lemma handleMagic_listing c st :
  trim c = "%ai model" \/ trim c = "%ai models" ->
  handleMagic c st = (Returned (Some (modelsText st)), st).
Proof.
  intros H. unfold handleMagic.
  assert (E : (String.eqb (trim c) "%ai model"
               || String.eqb (trim c) "%ai models")%bool = true).
  { destruct H as [-> | ->]; reflexivity. }
  rewrite E. reflexivity.
Qed.

(** C8, as the code has it.  [%ai model] and [%ai models] report
    the current model name when the session is initialized and
    otherwise "not yet initialized" with the resolved default, list
    the first 20 catalog entries at most, then an ellipsis line
    whatever the size of the catalog, and end with the usage hint. *)
Theorem models_magic_report (c : string) (st : State) :
  trim c = "%ai model" \/ trim c = "%ai models" ->
  exists text,
    handleMagic c st = (Returned (Some text), st)
    /\ text =
         (if isInitialized st
          then "Current model: " ++ show (getModelName st)
          else "Model not yet initialized. Default: " ++ getDefaultModel st)
         ++ lf ++ lf ++
         "Available models (showing first 20 of "
         ++ ofNat (List.length WEBLLM_MODELS) ++ "):" ++ lf ++
         "  " ++ join (lf ++ "  ") (firstn 20 WEBLLM_MODELS) ++ lf ++
         "  ..." ++ lf ++ lf ++
         "Use " ++ dq ++ "%ai model <name>" ++ dq ++ " to switch models."
    /\ List.length (firstn 20 WEBLLM_MODELS) <= 20
    /\ includes (lf ++ "  ..." ++ lf) text = true.
Proof.
  intros H. exists (modelsText st).
  split; [apply handleMagic_listing; exact H |].
  split; [reflexivity |].
  split; [apply firstn_le_length |].
  unfold modelsText.
  set (status := if isInitialized st then _ else _).
  set (n := ofNat (List.length WEBLLM_MODELS)).
  set (l := join (lf ++ "  ") (firstn 20 WEBLLM_MODELS)).
  replace (status ++ lf ++ lf ++ "Available models (showing first 20 of " ++ n ++ "):"
           ++ lf ++ "  " ++ l ++ lf ++ "  ..." ++ lf ++ lf
           ++ "Use " ++ dq ++ "%ai model <name>" ++ dq ++ " to switch models.")
    with ((status ++ lf ++ lf ++ "Available models (showing first 20 of " ++ n ++ "):"
           ++ lf ++ "  " ++ l)
          ++ (lf ++ "  ..." ++ lf)
          ++ (lf ++ "Use " ++ dq ++ "%ai model <name>" ++ dq ++ " to switch models.")).
  - apply includes_middle.
  - rewrite !append_assoc. reflexivity.
Qed.

End MagicClaims.

Lemma models_magic_report_witness :
  exists text,
    @handleMagic models_ts "  %ai models " newKernel = (Returned (Some text), newKernel)
    /\ JsString.includes (JsString.lf ++ "  ..." ++ JsString.lf) text = true.
Proof.
  destruct (@models_magic_report models_ts "  %ai models " newKernel)
    as (text & Hrun & _ & _ & Hdots).
  - right. reflexivity.
  - exists text. split; assumption.
Defined.

(** C8 as stated fails on the catalog of the repository: it has four
    entries, not more than 20, and the report still has the ellipsis. *)
Lemma models_magic_ellipsis_counterexample :
  @handleMagic models_ts "%ai model" newKernel =
    (Returned (Some (@modelsText models_ts newKernel)), newKernel)
  /\ JsString.includes "..." (@modelsText models_ts newKernel) = true
  /\ List.length (@WEBLLM_MODELS models_ts) = 4
  /\ ~ (20 < List.length (@WEBLLM_MODELS models_ts)).
Proof.
  split; [reflexivity |]. split; [reflexivity |]. split; [reflexivity |].
  simpl. lia.
Qed.

(** ** Switching the model *)

Section SwitchClaims.
Context {catalog : ModelCatalog}.

Lemma openStream_ready rt prompt st name :
  chat st = ready name ->
  openStream rt prompt st = converse rt (webLLM name) prompt st.
Proof.
  intros H. unfold openStream, bind, getState, ret. rewrite H. simpl.
  rewrite H. reflexivity.
Qed.

(** C7, as the code has it.  On a session that is not initialized,
    [setModel] with a catalog name returns ["Model set to: <name>"]
    (the wording with "changed" is for a session that was already
    initialized), and a subsequent [send] talks to the handle of the
    newly set model, without initializing the default. *)
Theorem setModel_on_fresh_session
        (name : string) (st : State)
        (rt : Runtime) (prompt : string) (onChunk : option (string -> M State unit)) :
  initialized (chat st) = false ->
  In name WEBLLM_MODELS ->
  exists st1,
    setModel name st = (Returned ("Model set to: " ++ name), st1)
    /\ chat st1 = ready name
    /\ send rt prompt onChunk st1 =
         (result <- converse rt (webLLM name) prompt ;;
          forAwait onChunk (fragments result) (failure result) "") st1.
Proof.
  intros Hfresh Hin. apply isValidWebLLMModel_true in Hin.
  exists (set_chat (fun _ => ready name) st).
  split; [| split].
  - rewrite (setModel_valid name st Hin), Hfresh. reflexivity.
  - reflexivity.
  - unfold send, bind at 1.
    rewrite (openStream_ready rt prompt (set_chat (fun _ => ready name) st) name eq_refl).
    reflexivity.
Qed.

End SwitchClaims.

Lemma setModel_on_fresh_session_witness :
  exists st1,
    @setModel catalogAB "B" newKernel = (Returned "Model set to: B", st1)
    /\ fst (@send catalogAB (streaming ["ok"]) "Hi" None st1) = Returned "ok"
    /\ calls (snd (@send catalogAB (streaming ["ok"]) "Hi" None st1)) =
         [CallAvailability (webLLM "B"); CallStreamText (webLLM "B") "Hi"].
Proof.
  destruct (@setModel_on_fresh_session catalogAB "B" newKernel
              (streaming ["ok"]) "Hi" None)
    as (st1 & Hset & Hchat & Hsend).
  - reflexivity.
  - right. left. reflexivity.
  - exists st1. split; [exact Hset |].
    injection Hset as <-. rewrite Hsend. split; reflexivity.
Defined.

(** C7 as stated fails in the scenario of the spec: with catalog
    [A, B] and default [A], [setModel("B")] on a new session answers
    "Model set to: B", which does not contain "changed". *)
Lemma setModel_changed_counterexample :
  fst (@setModel catalogAB "B" newKernel) = Returned "Model set to: B"
  /\ JsString.includes "changed" "Model set to: B" = false.
Proof. split; reflexivity. Qed.

(** ** Magics in [executeRequest] *)

Section MagicExecution.
Context {catalog : ModelCatalog}.
Import JsString.

Lemma published_one st m : published st (publish m st) = [m].
Proof.
  unfold published, publish. simpl.
  rewrite skipn_app, skipn_all, Nat.sub_diag. reflexivity.
Qed.

(** C6, as the code has it.  When [handleMagic] returns a text,
    [executeRequest] publishes exactly one stdout stream message, whose
    text is the result followed by a line feed, returns status "ok"
    and does not call [send]: nothing is asked of the runtime.  The
    session is as [handleMagic] left it, which is unchanged for the
    listing and help forms and (re)initialized with [<name>] for
    [%ai model <name>]. *)
Theorem magic_result_is_streamed
        (rt : Runtime) (c : string) (st st1 : State) (text : string) :
  handleMagic c st = (Returned (Some text), st1) ->
  exists reply st',
    executeRequest rt (mkContent (Some c)) st = (Returned reply, st')
    /\ status reply = "ok"
    /\ published st st' = [Stream "stdout" (text ++ lf) (parentHeader st)]
    /\ calls st' = calls st
    /\ chat st' = chat st1
    /\ (modelMatch (trim c) = None -> chat st' = chat st)
    /\ (forall name, modelMatch (trim c) = Some name ->
          In name WEBLLM_MODELS /\ chat st' = ready name).
Proof.
  intros Hm.
  exists (ReplyOk (executionCount st1) [] []),
         (publish (Stream "stdout" (text ++ lf) (parentHeader st1)) st1).
  assert (Hframe : iopub st1 = iopub st /\ parentHeader st1 = parentHeader st
                   /\ calls st1 = calls st
                   /\ (modelMatch (trim c) = None -> chat st1 = chat st)
                   /\ (forall name, modelMatch (trim c) = Some name ->
                         In name WEBLLM_MODELS /\ chat st1 = ready name)).
  { destruct (handleMagic_cases c st text st1 Hm)
      as [(-> & Hl & _) | [(name & Hmatch & Hv & -> & _) | (-> & Hh & _)]].
    - do 4 (split; [reflexivity |]).
      intros name Hn. destruct Hl as [Hl | Hl]; rewrite Hl in Hn; discriminate Hn.
    - do 3 (split; [reflexivity |]). split.
      + intros Hn. rewrite Hmatch in Hn. discriminate Hn.
      + intros name' Hn. rewrite Hmatch in Hn. injection Hn as <-.
        split; [apply isValidWebLLMModel_true; exact Hv | reflexivity].
    - do 4 (split; [reflexivity |]).
      intros name Hn. destruct Hh as [Hh | Hh]; rewrite Hh in Hn; discriminate Hn. }
  destruct Hframe as (Hio & Hhdr & Hcalls & Hnone & Hsome).
  split; [| split; [reflexivity | split; [| split; [| split; [| split]]]]].
  - unfold executeRequest. cbn [code]. unfold tryCatch.
    rewrite (bind_returned _ _ _ _ _ Hm). reflexivity.
  - rewrite <- Hhdr. unfold published. rewrite <- Hio. apply published_one.
  - exact Hcalls.
  - reflexivity.
  - exact Hnone.
  - exact Hsome.
Qed.

End MagicExecution.

Lemma magic_result_is_streamed_witness :
  exists reply st',
    @executeRequest models_ts unsupported (mkContent (Some "%ai help")) newKernel
      = (Returned reply, st')
    /\ status reply = "ok"
    /\ published newKernel st' = [Stream "stdout" (helpText ++ JsString.lf) ""]
    /\ calls st' = []
    /\ chat st' = chat newKernel.
Proof.
  destruct (@magic_result_is_streamed models_ts unsupported "%ai help"
              newKernel newKernel helpText eq_refl)
    as (reply & st' & Hrun & Hok & Hpub & Hcalls & _ & Hnone & _).
  exists reply, st'. repeat split; try assumption.
  apply Hnone. reflexivity.
Defined.

(** C6 as stated fails on [%ai model <name>] with a catalog name:
    [handleMagic] returns a text, yet the session is initialized by
    the request; and the text of the stream message is not the result
    itself but the result followed by a line feed. *)
Lemma magic_touches_model_counterexample :
  let c := "%ai model SmolLM2-360M-Instruct-q4f16_1-MLC" in
  let text := "Model set to: SmolLM2-360M-Instruct-q4f16_1-MLC" in
  let st' := snd (@executeRequest models_ts unsupported (mkContent (Some c)) newKernel) in
  fst (@handleMagic models_ts c newKernel) = Returned (Some text)
  /\ isInitialized newKernel = false
  /\ isInitialized st' = true
  /\ getModelName st' = Some "SmolLM2-360M-Instruct-q4f16_1-MLC"
  /\ chat st' <> chat newKernel
  /\ published newKernel st' <> [Stream "stdout" text ""].
Proof.
  repeat split; try reflexivity; discriminate.
Qed.

(** ** Properties kept by every entry point *)

Section Frame.
Context {catalog : ModelCatalog}.
Variable P : State -> Prop.
Hypothesis P_initializeModel : forall name, preserves P (initializeModel name).
Hypothesis P_logCall : forall c st, P st -> P (logCall c st).
Hypothesis P_dispatchEvent : forall r st, P st -> P (dispatchEvent r st).

Lemma setModel_preserves name : preserves P (setModel name).
Proof.
  unfold setModel. destruct (negb (isValidWebLLMModel name)).
  - apply preserves_throw.
  - apply preserves_bind; [apply preserves_getState | intros st0].
    apply preserves_bind; [apply P_initializeModel | intros _].
    destruct (initialized (chat st0)); apply preserves_ret.
Qed.

Lemma dispatchReports_preserves rs : preserves P (dispatchReports rs).
Proof.
  apply preserves_modify. induction rs as [| r rs IH]; intros st H; simpl; auto.
Qed.

Lemma converse_preserves rt h prompt : preserves P (converse rt h prompt).
Proof.
  unfold converse.
  apply preserves_bind; [apply preserves_modify; auto | intros _].
  apply preserves_bind; [apply preserves_liftOutcome | intros a].
  apply preserves_bind.
  - destruct a; auto with preserves.
    + apply preserves_bind; [apply preserves_modify; auto | intros _].
      apply preserves_bind; [apply dispatchReports_preserves | intros _].
      destruct (rejection _); auto with preserves.
    + apply preserves_bind; [apply preserves_modify; auto | intros _].
      apply preserves_bind; [apply dispatchReports_preserves | intros _].
      destruct (rejection _); auto with preserves.
  - intros _.
    apply preserves_bind; [apply preserves_modify; auto | intros _].
    apply preserves_liftOutcome.
Qed.

Lemma openStream_preserves rt prompt : preserves P (openStream rt prompt).
Proof.
  unfold openStream.
  apply preserves_bind; [apply preserves_getState | intros st0].
  apply preserves_bind.
  - destruct (_ || _)%bool; [apply P_initializeModel | apply preserves_ret].
  - intros _. apply preserves_bind; [apply preserves_getState | intros st1].
    destruct (model (chat st1)); [apply converse_preserves | apply preserves_throw].
Qed.

Lemma forAwait_preserves onChunk chunks failure reply :
  (forall f c, onChunk = Some f -> preserves P (f c)) ->
  preserves P (forAwait onChunk chunks failure reply).
Proof.
  intros Hcb. revert reply.
  induction chunks as [| c rest IH]; intros reply; cbn [forAwait].
  - destruct failure; auto with preserves.
  - apply preserves_bind; [| intros _; apply IH].
    destruct onChunk as [f |]; [| apply preserves_ret].
    apply preserves_bind; [apply preserves_modify; auto | intros _].
    apply (Hcb f c eq_refl).
Qed.

Lemma send_preserves rt prompt onChunk :
  (forall f c, onChunk = Some f -> preserves P (f c)) ->
  preserves P (send rt prompt onChunk).
Proof.
  intros Hcb. unfold send.
  apply preserves_bind; [apply openStream_preserves | intros result].
  apply forAwait_preserves. exact Hcb.
Qed.

Lemma handleMagic_preserves c : preserves P (handleMagic c).
Proof.
  unfold handleMagic.
  destruct (_ || _)%bool.
  - apply preserves_bind; [apply preserves_getState | intros st0; apply preserves_ret].
  - destruct (modelMatch _) as [name |].
    + apply preserves_tryCatch; [| intros e; apply preserves_throw].
      apply preserves_bind; [apply setModel_preserves | intros r; apply preserves_ret].
    + destruct (_ || _)%bool; apply preserves_ret.
Qed.

Hypothesis P_publish : forall m st, P st -> P (publish m st).

Lemma stream_preserves name text : preserves P (stream name text).
Proof. apply preserves_modify. intros st H. apply P_publish. exact H. Qed.

Lemma executeRequest_preserves rt content : preserves P (executeRequest rt content).
Proof.
  unfold executeRequest. apply preserves_tryCatch.
  - apply preserves_bind; [apply handleMagic_preserves | intros [text |]].
    + apply preserves_bind; [apply stream_preserves | intros _].
      apply preserves_bind; [apply preserves_getState | intros st0; apply preserves_ret].
    + apply preserves_bind.
      * apply send_preserves. intros f c H. injection H as <-. apply stream_preserves.
      * intros _.
        apply preserves_bind; [apply preserves_getState | intros st0; apply preserves_ret].
  - intros e.
    apply preserves_bind; [| intros _].
    + apply preserves_modify. intros st H. apply P_publish. exact H.
    + apply preserves_bind; [apply preserves_getState | intros st0; apply preserves_ret].
Qed.

Hypothesis P_set_host : forall n h st, P st -> P (set_host n h st).
Hypothesis P_updateSettings : forall v, preserves P (updateSettings v).

Lemma step_preserves op st : P st -> P (step op st).
Proof.
  intros H. destruct op as [v | n h | name | rt prompt onChunk | rt content]; simpl.
  - apply P_updateSettings. exact H.
  - apply P_set_host. exact H.
  - apply setModel_preserves. exact H.
  - apply send_preserves; [| exact H].
    intros f c Hf. destruct onChunk as [g |]; [| discriminate Hf].
    injection Hf as <-. apply preserves_liftOutcome.
  - apply executeRequest_preserves. exact H.
Qed.

Lemma run_preserves ops st : P st -> P (run ops st).
Proof.
  revert st. induction ops as [| op ops IH]; intros st H; simpl.
  - exact H.
  - apply IH. apply step_preserves. exact H.
Qed.

End Frame.

(** ** The session invariant *)

Section Invariant.
Context {catalog : ModelCatalog}.

Lemma consistent_new : consistent (chat newKernel).
Proof.
  unfold consistent. simpl. split; split; intros H; try discriminate; contradiction.
Qed.

Lemma consistent_ready name : consistent (ready name).
Proof.
  unfold consistent. simpl. split; split; intros H; try reflexivity; discriminate.
Qed.

Lemma initializeModel_consistent name :
  preserves (fun st => consistent (chat st)) (initializeModel name).
Proof.
  intros st H. destruct (isValidWebLLMModel name) eqn:Hv.
  - rewrite (initializeModel_valid name st Hv). apply consistent_ready.
  - rewrite (initializeModel_invalid name st Hv). exact H.
Qed.

Lemma updateSettings_chat v st : chat (snd (updateSettings v st)) = chat st.
Proof.
  unfold updateSettings. destruct v as [m |]; [| reflexivity].
  destruct (_ && _)%bool; reflexivity.
Qed.

(** C9. After construction and after any sequence of calls on the
    kernel ([setModel], [send] with or without a callback, execute
    requests, settings changes), the model handle is present iff the
    initialized flag is true, and the model name is set iff the
    initialized flag is true. *)
Theorem session_invariant (ops : list Op) :
  let k := chat (run ops newKernel) in
  (model k <> None <-> initialized k = true)
  /\ (modelName k <> None <-> initialized k = true).
Proof.
  apply (run_preserves (fun st => consistent (chat st))).
  - apply initializeModel_consistent.
  - intros c st H. exact H.
  - intros r st H. exact H.
  - intros m st H. exact H.
  - intros n h st H. exact H.
  - intros v st H. rewrite updateSettings_chat. exact H.
  - apply consistent_new.
Qed.

End Invariant.

Lemma session_invariant_witness :
  let k := chat (@run models_ts
                   [ SetModel "gpt-4";
                     Send unsupported "Hi" None;
                     ExecuteRequest (streaming ["ok"]) (mkContent (Some "%ai model"));
                     SetModel "SmolLM2-360M-Instruct-q4f16_1-MLC" ] newKernel) in
  k = ready "SmolLM2-360M-Instruct-q4f16_1-MLC"
  /\ (model k <> None <-> initialized k = true)
  /\ (modelName k <> None <-> initialized k = true).
Proof.
  intros k. split; [reflexivity |].
  exact (@session_invariant models_ts
           [ SetModel "gpt-4";
             Send unsupported "Hi" None;
             ExecuteRequest (streaming ["ok"]) (mkContent (Some "%ai model"));
             SetModel "SmolLM2-360M-Instruct-q4f16_1-MLC" ]).
Defined.

(** ** The default model *)

Section DefaultModel.
Context {catalog : ModelCatalog}.

Lemma updateSettings_valid v : preserves settingsValid (updateSettings v).
Proof.
  intros st H. unfold updateSettings. destruct v as [m |]; [| exact H].
  destruct (negb (String.eqb m "") && isValidWebLLMModel m)%bool eqn:Hg; [| exact H].
  apply andb_prop in Hg. destruct Hg as [_ Hv].
  intros m' Hm'. simpl in Hm'. injection Hm' as <-.
  apply isValidWebLLMModel_true. exact Hv.
Qed.

Lemma initializeModel_settings name st :
  settingsDefaultModel (snd (initializeModel name st)) = settingsDefaultModel st.
Proof.
  unfold initializeModel. destruct (negb (isValidWebLLMModel name)); reflexivity.
Qed.

Lemma run_settingsValid ops : settingsValid (run ops newKernel).
Proof.
  apply (run_preserves settingsValid).
  - intros name st H m Hm. rewrite initializeModel_settings in Hm. apply H. exact Hm.
  - intros c st H. exact H.
  - intros r st H. exact H.
  - intros m st H. exact H.
  - intros n h st H. exact H.
  - apply updateSettings_valid.
  - intros m Hm. discriminate Hm.
Qed.

Lemma getDefaultModel_valid st :
  In DEFAULT_WEBLLM_MODEL WEBLLM_MODELS ->
  settingsValid st ->
  In (getDefaultModel st) WEBLLM_MODELS.
Proof.
  intros Hd Hs. unfold getDefaultModel.
  destruct (settingsDefaultModel st) as [m |] eqn:E; [apply Hs; exact E | exact Hd].
Qed.

Lemma send_lazy rt prompt onChunk st :
  initialized (chat st) = false ->
  In (getDefaultModel st) WEBLLM_MODELS ->
  send rt prompt onChunk st =
    (result <- converse rt (webLLM (getDefaultModel st)) prompt ;;
     forAwait onChunk (fragments result) (failure result) "")
      (set_chat (fun _ => ready (getDefaultModel st)) st).
Proof.
  intros Hu Hv. apply isValidWebLLMModel_true in Hv.
  unfold send, openStream. unfold bind at 1 2 3. unfold getState at 1.
  rewrite Hu. cbn [negb orb].
  rewrite (initializeModel_valid _ st Hv). reflexivity.
Qed.

End DefaultModel.

(** C10. With the catalog of the repository, whatever values the
    settings source supplies and whatever else happens to the kernel,
    [getDefaultModel()] is a name of the catalog: a settings value is
    stored only if it is in the catalog, and the hardcoded default is
    in the catalog.  Hence the initialization done by [send] on a
    session that is not initialized passes the validation, and [send]
    goes on with the handle of the default model. *)
Theorem default_model_is_valid (ops : list Op) :
  let st := @run models_ts ops newKernel in
  In (@DEFAULT_WEBLLM_MODEL models_ts) (@WEBLLM_MODELS models_ts)
  /\ (forall m, settingsDefaultModel st = Some m -> In m (@WEBLLM_MODELS models_ts))
  /\ In (@getDefaultModel models_ts st) (@WEBLLM_MODELS models_ts)
  /\ @initializeModel models_ts (@getDefaultModel models_ts st) st =
       (Returned tt, set_chat (fun _ => ready (@getDefaultModel models_ts st)) st)
  /\ (forall rt prompt onChunk,
        initialized (chat st) = false ->
        @send models_ts rt prompt onChunk st =
          (result <- @converse rt (webLLM (@getDefaultModel models_ts st)) prompt ;;
           forAwait onChunk (fragments result) (failure result) "")
            (set_chat (fun _ => ready (@getDefaultModel models_ts st)) st)).
Proof.
  intros st.
  assert (Hd : In (@DEFAULT_WEBLLM_MODEL models_ts) (@WEBLLM_MODELS models_ts)).
  { simpl. auto. }
  pose proof (@run_settingsValid models_ts ops) as Hs. fold st in Hs.
  pose proof (@getDefaultModel_valid models_ts st Hd Hs) as Hv.
  split; [exact Hd |]. split; [exact Hs |]. split; [exact Hv |]. split.
  - apply initializeModel_valid. apply isValidWebLLMModel_true. exact Hv.
  - intros rt prompt onChunk Hu. apply send_lazy; assumption.
Qed.

Lemma default_model_is_valid_witness :
  let st := @run models_ts
              [SettingsChanged (Some "gpt-4");
               SettingsChanged (Some "SmolLM2-360M-Instruct-q4f16_1-MLC");
               SettingsChanged (Some "");
               SettingsChanged None] newKernel in
  @getDefaultModel models_ts st = "SmolLM2-360M-Instruct-q4f16_1-MLC"
  /\ @send models_ts (streaming ["ok"]) "Hi" None st =
       (Returned "ok",
        logCall (CallStreamText (webLLM "SmolLM2-360M-Instruct-q4f16_1-MLC") "Hi")
          (logCall (CallAvailability (webLLM "SmolLM2-360M-Instruct-q4f16_1-MLC"))
             (set_chat (fun _ => ready "SmolLM2-360M-Instruct-q4f16_1-MLC") st))).
Proof.
  intros st. split; [reflexivity |].
  destruct (default_model_is_valid
              [SettingsChanged (Some "gpt-4");
               SettingsChanged (Some "SmolLM2-360M-Instruct-q4f16_1-MLC");
               SettingsChanged (Some "");
               SettingsChanged None]) as (_ & _ & _ & _ & Hlazy).
  unfold st. rewrite (Hlazy (streaming ["ok"]) "Hi" None eq_refl). reflexivity.
Defined.

(** ** Failures at the execute boundary *)

Section Failures.
Context {catalog : ModelCatalog}.

Lemma send_streamsSince rt c st :
  streamsSince st (snd (send rt c (Some (stream "stdout")) st)).
Proof.
  apply (send_preserves (streamsSince st)).
  - intros name s H. unfold initializeModel.
    destruct (negb (isValidWebLLMModel name)); exact H.
  - intros k s H. exact H.
  - intros r s H. exact H.
  - intros f k Hf. injection Hf as <-.
    intros s (Hc & Hh & chunks & Hio).
    split; [exact Hc |]. split; [exact Hh |].
    exists (chunks ++ [k])%list. simpl.
    rewrite Hio, Hh, map_app, <- app_assoc. reflexivity.
  - split; [reflexivity |]. split; [reflexivity |].
    exists []. simpl. rewrite app_nil_r. reflexivity.
Qed.

Lemma published_since st s l :
  iopub s = (iopub st ++ l)%list -> published st s = l.
Proof.
  intros H. unfold published. rewrite H.
  rewrite skipn_app, skipn_all, Nat.sub_diag. reflexivity.
Qed.

Lemma streams_are_not_errors hdr chunks :
  filter isExecuteError (map (fun c => Stream "stdout" c hdr) chunks) = [].
Proof. induction chunks as [| c chunks IH]; simpl; [reflexivity | exact IH]. Qed.

(** [executeRequest] returns on every input: no exception leaves it. *)
Lemma executeRequest_returns rt content st :
  exists reply st', executeRequest rt content st = (Returned reply, st').
Proof.
  unfold executeRequest, tryCatch.
  match goal with |- context [match ?b st with _ => _ end] => destruct (b st) as [[r | e] s] end.
  - eauto.
  - do 2 eexists. reflexivity.
Qed.

(** C4. When the code is not a magic and [send] fails, be it in the
    initialization of the model or later, [executeRequest] catches the
    failure: it returns (it does not throw) a reply of status "error"
    with ename "Error", the message of the failure as evalue and an
    empty traceback, and among the messages it published there is
    exactly one error message, with the same three fields. *)
Theorem executeRequest_reports_failure
        (rt : Runtime) (content : Content) (st st1 : State) (e : Thrown) :
  let c := match code content with Some c => c | None => "" end in
  fst (handleMagic c st) = Returned None ->
  send rt c (Some (stream "stdout")) st = (Threw e, st1) ->
  exists reply st',
    executeRequest rt content st = (Returned reply, st')
    /\ reply = ReplyError (executionCount st) "Error" (failureMessage e) []
    /\ status reply = "error"
    /\ filter isExecuteError (published st st') =
         [ExecuteError "Error" (failureMessage e) [] (parentHeader st)]
    /\ chat st' = chat st1.
Proof.
  intros c Hmagic Hsend.
  assert (Hm : handleMagic c st = (Returned None, st)).
  { destruct (handleMagic c st) as [o s0] eqn:E. simpl in Hmagic. subst o.
    rewrite (handleMagic_none c st s0 E). reflexivity. }
  pose proof (send_streamsSince rt c st) as Hsince.
  rewrite Hsend in Hsince. simpl in Hsince.
  destruct Hsince as (Hcount & Hhdr & chunks & Hio).
  exists (ReplyError (executionCount st) "Error" (failureMessage e) []),
         (publish (ExecuteError "Error" (failureMessage e) [] (parentHeader st1)) st1).
  split; [| split; [reflexivity | split; [reflexivity | split; [| reflexivity]]]].
  - unfold executeRequest. fold c. unfold tryCatch.
    rewrite (bind_returned _ _ _ _ _ Hm).
    rewrite (bind_threw _ _ _ _ _ Hsend).
    unfold publishExecuteError, bind, modify, getState, ret.
    cbn [executionCount publish]. rewrite Hcount. reflexivity.
  - rewrite (published_since st _
               (map (fun k => Stream "stdout" k (parentHeader st)) chunks
                ++ [ExecuteError "Error" (failureMessage e) [] (parentHeader st1)])%list).
    + rewrite filter_app, streams_are_not_errors, Hhdr. reflexivity.
    + simpl. rewrite Hio, <- app_assoc. reflexivity.
Qed.

End Failures.

(** The initialization of the model fails in [send]: the failure is
    reported, with its message. *)
Lemma executeRequest_reports_failure_witness :
  exists st',
    @executeRequest catalogWithoutDefault (streaming ["ok"])
      (mkContent (Some "Hello")) newKernel =
      (Returned (ReplyError 0 "Error"
                   "Invalid model: Z. Use %ai model to see available models." []), st')
    /\ filter isExecuteError (published newKernel st') =
         [ExecuteError "Error"
            "Invalid model: Z. Use %ai model to see available models." [] ""].
Proof.
  destruct (@executeRequest_reports_failure catalogWithoutDefault (streaming ["ok"])
              (mkContent (Some "Hello")) newKernel newKernel
              (Error "Invalid model: Z. Use %ai model to see available models.")
              eq_refl eq_refl)
    as (reply & st' & Hrun & -> & _ & Herr & _).
  exists st'. split; [exact Hrun | exact Herr].
Defined.

(** A browser without WebGPU: the request fails with the message of
    [send], after the default model was initialized. *)
Example executeRequest_unsupported :
  @executeRequest models_ts unsupported (mkContent (Some "Hello")) newKernel =
    (Returned (ReplyError 0 "Error" "Browser does not support WebLLM / WebGPU." []),
     publish (ExecuteError "Error" "Browser does not support WebLLM / WebGPU." [] "")
       (logCall (CallAvailability (webLLM "Llama-3.2-3B-Instruct-q4f16_1-MLC"))
          (set_chat (fun _ => ready "Llama-3.2-3B-Instruct-q4f16_1-MLC") newKernel))).
Proof. reflexivity. Qed.

(* ================================================================= *)
(** * Further properties of the resolver and the container *)

Section ResolverErrors.
Import Federation.

Lemma importShared_body_resolveIn pkg st scope :
  effectiveScope st = Some scope ->
  importShared_body pkg st = (resolveIn pkg scope, adopt scope st).
Proof.
  intros Hs. unfold effectiveScope in Hs.
  destruct st as [shared glob]. simpl in Hs.
  unfold importShared_body, resolveIn, adopt, bind, getState, ret, modify, throw,
    liftOutcome.
  simpl.
  destruct shared as [sc |]; [injection Hs as -> | subst glob]; simpl.
  - destruct (Js.lookup pkg scope) as [[| [k ver] rest] |]; try reflexivity.
    destruct (version_get ver) as [[result | e] |]; try reflexivity.
    destruct (awaitIfThenable result) as [result' | e]; try reflexivity.
    destruct (callIfFunction result'); reflexivity.
  - destruct (Js.lookup pkg scope) as [[| [k ver] rest] |]; try reflexivity.
    destruct (version_get ver) as [[result | e] |]; try reflexivity.
    destruct (awaitIfThenable result) as [result' | e]; try reflexivity.
    destruct (callIfFunction result'); reflexivity.
Qed.

Lemma importShared_resolveIn pkg st scope :
  effectiveScope st = Some scope ->
  importShared pkg st =
    (match resolveIn pkg scope with
     | Returned result => Js.await result
     | Threw e => Threw e
     end, adopt scope st).
Proof.
  intros Hs. unfold importShared, bind.
  rewrite (importShared_body_resolveIn pkg st scope Hs).
  destruct (resolveIn pkg scope); reflexivity.
Qed.

(** Without a scope stored by [init] and without a global share
    scope, [importShared] fails for every package with the
    not-initialized error, and stores nothing. *)
Lemma importShared_requires_scope (pkg : string) (st : Federation.State) :
  sharedScope st = None ->
  webpack_share_scopes_default st = None ->
  importShared pkg st =
    (Threw (Error ("[webllm-chat-kernel] Shared scope not initialized when requesting "
                   ++ pkg)), st).
Proof.
  intros H1 H2. destruct st as [shared glob]. simpl in *. subst. reflexivity.
Qed.

Lemma importShared_requires_scope_witness :
  fst (importShared "react" {| sharedScope := None; webpack_share_scopes_default := None |})
  = Threw (Error "[webllm-chat-kernel] Shared scope not initialized when requesting react").
Proof.
  rewrite (importShared_requires_scope "react"
             {| sharedScope := None; webpack_share_scopes_default := None |}
             eq_refl eq_refl).
  reflexivity.
Defined.



(** X2. Only the first enumerated version of a package counts: an
    empty version table fails with the no-versions error, a first
    version without a factory fails with the no-factory error even
    when a later version has one, and otherwise the versions after
    the first have no influence on the outcome. *)
Theorem importShared_first_version_decides
        (pkg : string) (st : Federation.State) (scope : Scope) :
  effectiveScope st = Some scope ->
  (Js.lookup pkg scope = Some [] ->
   importShared pkg st =
     (Threw (Error ("[webllm-chat-kernel] No versions available for " ++ pkg)),
      adopt scope st))
  /\ (forall k rest,
        Js.lookup pkg scope = Some ((k, mkVersion None) :: rest) ->
        importShared pkg st =
          (Threw (Error ("[webllm-chat-kernel] Module " ++ pkg ++ " has no factory function")),
           adopt scope st))
  /\ (forall k version rest st' scope' k' rest',
        Js.lookup pkg scope = Some ((k, version) :: rest) ->
        effectiveScope st' = Some scope' ->
        Js.lookup pkg scope' = Some ((k', version) :: rest') ->
        fst (importShared pkg st) = fst (importShared pkg st')).
Proof.
  intros Hs. split; [| split].
  - intros Hl. rewrite (importShared_resolveIn pkg st scope Hs).
    unfold resolveIn. rewrite Hl. reflexivity.
  - intros k rest Hl. rewrite (importShared_resolveIn pkg st scope Hs).
    unfold resolveIn. rewrite Hl. reflexivity.
  - intros k version rest st' scope' k' rest' Hl Hs' Hl'.
    rewrite (importShared_resolveIn pkg st scope Hs).
    rewrite (importShared_resolveIn pkg st' scope' Hs').
    unfold resolveIn. rewrite Hl, Hl'. reflexivity.
Qed.

Lemma importShared_first_version_decides_witness :
  let scope := [("react", [("17.0.2", mkVersion None);
                           ("18.2.0", mkVersion (Some (Returned (VObject []))))])] in
  fst (importShared "react" {| sharedScope := Some scope;
                               webpack_share_scopes_default := None |})
  = Threw (Error "[webllm-chat-kernel] Module react has no factory function").
Proof.
  intros scope.
  destruct (importShared_first_version_decides "react"
              {| sharedScope := Some scope; webpack_share_scopes_default := None |}
              scope eq_refl) as (_ & Hnofactory & _).
  rewrite (Hnofactory "17.0.2" _ eq_refl). reflexivity.
Defined.

(** X3. [importShared] returns a value only out of a factory: if it
    returns [v], a scope was at hand, the package is in it with a
    first version whose factory returned some [result], and [v] is
    [result] after the two unwrap steps. *)
Theorem importShared_body_returns_only_factory_results
        (pkg : string) (st st' : Federation.State) (v : jsval) :
  importShared_body pkg st = (Returned v, st') ->
  exists scope result,
    effectiveScope st = Some scope
    /\ firstFactory pkg scope = Some (Returned result)
    /\ match awaitIfThenable result with
       | Returned result' => callIfFunction result'
       | Threw e => Threw e
       end = Returned v
    /\ st' = adopt scope st.
Proof.
  intros H.
  destruct (effectiveScope st) as [scope |] eqn:Hs.
  - rewrite (importShared_body_resolveIn pkg st scope Hs) in H.
    injection H as Hr <-. exists scope.
    unfold resolveIn in Hr. unfold firstFactory.
    destruct (Js.lookup pkg scope) as [[| [k ver] rest] |]; try discriminate Hr.
    destruct (version_get ver) as [[result | e] |]; try discriminate Hr.
    exists result. repeat split. exact Hr.
  - unfold effectiveScope in Hs. destruct st as [[sc |] [g |]]; try discriminate Hs.
    discriminate H.
Qed.

Lemma importShared_body_returns_only_factory_results_witness :
  exists scope result,
    effectiveScope {| sharedScope := Some hostScope;
                      webpack_share_scopes_default := None |} = Some scope
    /\ firstFactory "@lumino/widgets" scope = Some (Returned result)
    /\ match awaitIfThenable result with
       | Returned result' => callIfFunction result'
       | Threw e => Threw e
       end = Returned (VObject [("Widget", VNull)]).
Proof.
  destruct (importShared_body_returns_only_factory_results "@lumino/widgets"
              {| sharedScope := Some hostScope; webpack_share_scopes_default := None |}
              _ _ eq_refl) as (scope & result & H1 & H2 & H3 & _).
  exists scope, result. repeat split; assumption.
Defined.

End ResolverErrors.

Section ResolverState.
Import Federation.

Lemma await_settles (v : jsval) :
  forall r, Js.await v = Returned r -> Js.isThenable r = false.
Proof.
  revert v. fix IH 1. intros v r H.
  destruct v as [ | | b | s | props | c call | settles];
    try (simpl in H; injection H as <-; reflexivity).
  destruct settles as [v' | e]; simpl in H.
  - exact (IH v' r H).
  - discriminate H.
Qed.

(** X4. Whatever shape the factory result has, what a caller of
    [await importShared(pkg)] receives is never a promise: a thenable
    left after the two unwrap steps is followed until it settles. *)
Theorem importShared_never_returns_thenable
        (pkg : string) (st st' : Federation.State) (v : jsval) :
  importShared pkg st = (Returned v, st') ->
  Js.isThenable v = false.
Proof.
  unfold importShared, bind, liftOutcome. intros H.
  destruct (importShared_body pkg st) as [[result | e] s]; [| discriminate H].
  injection H as H _. exact (await_settles result v H).
Qed.

Lemma importShared_never_returns_thenable_witness :
  let scope := [("react", [("18.2.0",
                  mkVersion (Some (Returned (VFunction false
                    (Returned (VPromise (Returned (VObject [("version", VString "18")]))))))))])] in
  let st := {| sharedScope := Some scope; webpack_share_scopes_default := None |} in
  fst (importShared_body "react" st)
    = Returned (VPromise (Returned (VObject [("version", VString "18")])))
  /\ fst (importShared "react" st) = Returned (VObject [("version", VString "18")])
  /\ Js.isThenable (VObject [("version", VString "18")]) = false.
Proof.
  intros scope st. split; [reflexivity |]. split; [reflexivity |].
  apply (importShared_never_returns_thenable "react" st (snd (importShared "react" st))).
  reflexivity.
Defined.

(** X5. The fallback to the global share scope is taken once: the
    first [importShared] without a stored scope stores the global
    scope, whether it succeeds or fails, and later calls read the
    stored scope even if the global one has been replaced or removed
    since. *)
Theorem importShared_fallback_is_sticky
        (pkg pkg' : string) (st : Federation.State) (g : Scope) (g' : option Scope) :
  sharedScope st = None ->
  webpack_share_scopes_default st = Some g ->
  let st1 := snd (importShared pkg st) in
  sharedScope st1 = Some g
  /\ importShared pkg' (withGlobal g' st1) =
       (fst (importShared pkg' st), withGlobal g' st1).
Proof.
  intros H1 H2 st1.
  assert (Hs : effectiveScope st = Some g).
  { unfold effectiveScope. rewrite H1. exact H2. }
  assert (E1 : st1 = adopt g st).
  { unfold st1. rewrite (importShared_resolveIn pkg st g Hs). reflexivity. }
  rewrite E1. split; [reflexivity |].
  rewrite (importShared_resolveIn pkg' st g Hs).
  rewrite (importShared_resolveIn pkg' (withGlobal g' (adopt g st)) g eq_refl).
  reflexivity.
Qed.

Lemma importShared_fallback_is_sticky_witness :
  let st := {| sharedScope := None; webpack_share_scopes_default := Some hostScope |} in
  let st1 := snd (importShared "vue" st) in
  fst (importShared "vue" st) <> fst (importShared "react" st)
  /\ importShared "react" (withGlobal None st1) = (Returned (VObject []), withGlobal None st1).
Proof.
  intros st st1. split; [discriminate |].
  destruct (importShared_fallback_is_sticky "vue" "react" st hostScope None
              eq_refl eq_refl) as [_ H].
  exact H.
Defined.

(** X6. [init] replaces the stored scope, the last call winning: after
    it, [importShared] reads the scope given last, whatever was stored
    before and whatever the global share scope holds; and [init] with
    [null] brings the fallback to the global scope back. *)
Theorem init_last_call_wins
        (pkg : string) (st : Federation.State) (first : option Scope) (last : Scope) :
  let st2 := snd (init (Some last) (snd (init first st))) in
  importShared pkg st2 =
    (fst (importShared pkg {| sharedScope := Some last;
                              webpack_share_scopes_default := None |}), st2)
  /\ effectiveScope (snd (init None st2)) = webpack_share_scopes_default st.
Proof.
  intros st2. split.
  - rewrite (importShared_resolveIn pkg st2 last eq_refl).
    rewrite (importShared_resolveIn pkg
               {| sharedScope := Some last; webpack_share_scopes_default := None |}
               last eq_refl).
    reflexivity.
  - reflexivity.
Qed.

End ResolverState.

Section PluginThunk.
Import Federation.

Lemma getProp_returns_not_nullish v k x :
  Js.getProp v k = Returned x -> isNullish v = false.
Proof. destruct v; simpl; intros H; try discriminate H; reflexivity. Qed.

(** What the thunk returns on a host that is ready. *)
Lemma pluginModule_runs st scope :
  effectiveScope st = Some scope ->
  hostReady st = true ->
  pluginModule st =
    (Returned {| __esModule := true;
                 default := [ {| id := "@wiki3-ai/webllm-chat-kernel:plugin";
                                 autoStart := true;
                                 requires := [providedKernelSpecs st];
                                 optional := providedSettingRegistry st |} ] |},
     adopt scope st).
Proof.
  unfold hostReady, resolvesToObject, providedKernelSpecs, providedSettingRegistry.
  intros Hs H.
  destruct (importShared_settles "@jupyterlite/kernel" st scope Hs) as (o1 & K1 & _).
  destruct (importShared_settles "@lumino/widgets" st scope Hs) as (o2 & K2 & K2').
  destruct (importShared_settles "@jupyterlab/apputils" st scope Hs) as (o3 & K3 & K3').
  destruct (importShared_settles "react" st scope Hs) as (o4 & K4 & K4').
  destruct (importShared_settles "@jupyterlab/ui-components" st scope Hs) as (o5 & K5 & K5').
  destruct (importShared_settles "@jupyterlab/settingregistry" st scope Hs) as (o6 & K6 & K6').
  rewrite K1, K2, K3, K4, K5 in H. rewrite K1, K6. simpl in H. simpl fst.
  repeat (apply andb_prop in H; destruct H as [H ?]).
  destruct o1 as [v1 | ?]; [| discriminate].
  destruct o2 as [v2 | ?]; [| discriminate].
  destruct o3 as [v3 | ?]; [| discriminate].
  destruct o4 as [v4 | ?]; [| discriminate].
  destruct o5 as [v5 | ?]; [| discriminate].
  destruct (Js.getProp v1 "BaseKernel") as [b |] eqn:Hb; [| discriminate].
  pose proof (getProp_returns_not_nullish _ _ _ Hb) as Hn1.
  destruct (getProp_object v1 "IKernelSpecs" Hn1) as [specs Hspecs].
  repeat match goal with
         | Hn : negb (isNullish ?v) = true |- _ => apply negb_true_iff in Hn
         end.
  destruct (getProp_object v2 "Widget") as [x2 Hx2]; [assumption |].
  destruct (getProp_object v3 "ReactWidget") as [x3 Hx3]; [assumption |].
  destruct (getProp_object v5 "HTMLSelect") as [x5 Hx5]; [assumption |].
  unfold pluginModule.
  rewrite (bind_returned _ _ _ _ _ K1).
  unfold liftOutcome at 1. unfold bind at 1. rewrite Hb.
  unfold liftOutcome at 1. unfold bind at 1. rewrite Hspecs.
  rewrite (bind_returned _ _ _ _ _ K2').
  unfold liftOutcome at 1. unfold bind at 1. rewrite Hx2.
  rewrite (bind_returned _ _ _ _ _ K3').
  unfold liftOutcome at 1. unfold bind at 1. rewrite Hx3.
  rewrite (bind_returned _ _ _ _ _ K4').
  rewrite (bind_returned _ _ _ _ _ K5').
  unfold liftOutcome at 1. unfold bind at 1. rewrite Hx5.
  rewrite H. unfold bind at 1, ret at 1.
  unfold bind at 1, tryCatch at 1, bind at 1. rewrite K6'.
  destruct o6 as [v6 | e6].
  - unfold liftOutcome.
    destruct (Js.getProp v6 "ISettingRegistry"); unfold ret; reflexivity.
  - unfold ret. reflexivity.
Qed.

Lemma pluginModule_needs_ready_host st exports st' :
  pluginModule st = (Returned exports, st') -> hostReady st = true.
Proof.
  intros H.
  destruct (effectiveScope st) as [scope |] eqn:Hs.
  2:{ destruct (importShared_needs_scope "@jupyterlite/kernel" st Hs) as [e He].
      unfold pluginModule in H. rewrite (bind_threw _ _ _ _ _ He) in H.
      discriminate H. }
  destruct (importShared_settles "@jupyterlite/kernel" st scope Hs) as (o1 & K1 & _).
  destruct (importShared_settles "@lumino/widgets" st scope Hs) as (o2 & K2 & K2').
  destruct (importShared_settles "@jupyterlab/apputils" st scope Hs) as (o3 & K3 & K3').
  destruct (importShared_settles "react" st scope Hs) as (o4 & K4 & K4').
  destruct (importShared_settles "@jupyterlab/ui-components" st scope Hs) as (o5 & K5 & K5').
  unfold hostReady, resolvesToObject. rewrite K1, K2, K3, K4, K5. simpl fst.
  unfold pluginModule in H.
  destruct o1 as [v1 | e1];
    [rewrite (bind_returned _ _ _ _ _ K1) in H
    | rewrite (bind_threw _ _ _ _ _ K1) in H; discriminate H].
  unfold liftOutcome at 1 in H. unfold bind at 1 in H.
  destruct (Js.getProp v1 "BaseKernel") as [b | eb] eqn:Hb; [| discriminate H].
  unfold liftOutcome at 1 in H. unfold bind at 1 in H.
  destruct (Js.getProp v1 "IKernelSpecs") as [specs | es]; [| discriminate H].
  destruct o2 as [v2 | e2];
    [rewrite (bind_returned _ _ _ _ _ K2') in H
    | rewrite (bind_threw _ _ _ _ _ K2') in H; discriminate H].
  unfold liftOutcome at 1 in H. unfold bind at 1 in H.
  destruct (Js.getProp v2 "Widget") as [x2 | ex2] eqn:Hx2; [| discriminate H].
  destruct o3 as [v3 | e3];
    [rewrite (bind_returned _ _ _ _ _ K3') in H
    | rewrite (bind_threw _ _ _ _ _ K3') in H; discriminate H].
  unfold liftOutcome at 1 in H. unfold bind at 1 in H.
  destruct (Js.getProp v3 "ReactWidget") as [x3 | ex3] eqn:Hx3; [| discriminate H].
  destruct o4 as [v4 | e4];
    [rewrite (bind_returned _ _ _ _ _ K4') in H
    | rewrite (bind_threw _ _ _ _ _ K4') in H; discriminate H].
  destruct o5 as [v5 | e5];
    [rewrite (bind_returned _ _ _ _ _ K5') in H
    | rewrite (bind_threw _ _ _ _ _ K5') in H; discriminate H].
  unfold liftOutcome at 1 in H. unfold bind at 1 in H.
  destruct (Js.getProp v5 "HTMLSelect") as [x5 | ex5] eqn:Hx5; [| discriminate H].
  destruct (Js.isSuperclass b) eqn:Hsuper; [| discriminate H].
  rewrite (getProp_returns_not_nullish _ _ _ Hx2).
  rewrite (getProp_returns_not_nullish _ _ _ Hx3).
  rewrite (getProp_returns_not_nullish _ _ _ Hx5).
  reflexivity.
Qed.

(** X7. The plugin thunk returns exactly on a ready host: when the
    five required packages resolve, those it destructures are objects
    and [BaseKernel] can be extended.  In every other case the thunk
    throws, so that a missing capability aborts the load of the plugin
    instead of yielding a partial module. *)
Theorem pluginModule_returns_iff_host_ready (st : Federation.State) :
  (exists exports st', pluginModule st = (Returned exports, st'))
  <-> hostReady st = true.
Proof.
  split.
  - intros (exports & st' & H). exact (pluginModule_needs_ready_host st exports st' H).
  - intros H.
    destruct (effectiveScope st) as [scope |] eqn:Hs.
    + do 2 eexists. apply (pluginModule_runs st scope Hs H).
    + destruct (importShared_needs_scope "@jupyterlite/kernel" st Hs) as [e He].
      unfold hostReady in H. rewrite He in H. discriminate H.
Qed.

Lemma pluginModule_returns_iff_host_ready_witness :
  let missingReact := (firstn 3 hostScope ++ skipn 4 hostScope)%list in
  hostReady {| sharedScope := Some missingReact; webpack_share_scopes_default := None |}
    = false
  /\ ~ exists exports st',
         pluginModule {| sharedScope := Some missingReact;
                         webpack_share_scopes_default := None |} = (Returned exports, st').
Proof.
  intros missingReact. split; [reflexivity |].
  intros H.
  apply (proj1 (pluginModule_returns_iff_host_ready _)) in H. discriminate H.
Defined.

(** X8. On a ready host the module the thunk returns holds one plugin,
    with the id of the package, [autoStart] set, the host's
    [IKernelSpecs] token as its only required capability, and the
    host's [ISettingRegistry] token as its only optional capability
    when the setting registry package resolves and exports one; when
    that package is missing or fails, the plugin asks for no optional
    capability and the thunk still returns. *)
Theorem pluginModule_descriptor
        (st st' : Federation.State) (exports : ModuleExports) :
  pluginModule st = (Returned exports, st') ->
  exists plugin,
    default exports = [plugin]
    /\ id plugin = "@wiki3-ai/webllm-chat-kernel:plugin"
    /\ autoStart plugin = true
    /\ requires plugin = [providedKernelSpecs st]
    /\ optional plugin = providedSettingRegistry st
    /\ (forall e s, importShared "@jupyterlab/settingregistry" st = (Threw e, s) ->
          optional plugin = []).
Proof.
  intros H.
  pose proof (pluginModule_needs_ready_host st exports st' H) as Hready.
  destruct (effectiveScope st) as [scope |] eqn:Hs.
  - rewrite (pluginModule_runs st scope Hs Hready) in H.
    injection H as <- _. eexists. split; [reflexivity |].
    repeat split.
    intros e s He. simpl. unfold providedSettingRegistry. rewrite He. reflexivity.
  - destruct (importShared_needs_scope "@jupyterlite/kernel" st Hs) as [e He].
    unfold hostReady in Hready. rewrite He in Hready. discriminate Hready.
Qed.

Lemma pluginModule_descriptor_witness :
  let st := {| sharedScope := Some hostScope; webpack_share_scopes_default := None |} in
  exists plugin,
    default (match fst (pluginModule st) with
             | Returned exports => exports
             | Threw _ => {| __esModule := false; default := [] |}
             end) = [plugin]
    /\ requires plugin = [VObject [("name", VString "IKernelSpecs")]]
    /\ optional plugin = [].
Proof.
  intros st.
  destruct (pluginModule st) as [[exports | e] st'] eqn:Hrun; [| discriminate Hrun].
  destruct (pluginModule_descriptor st st' exports Hrun)
    as (plugin & Hd & _ & _ & Hreq & Hopt & _).
  exists plugin. split; [exact Hd |]. split.
  - rewrite Hreq. reflexivity.
  - rewrite Hopt. reflexivity.
Defined.

End PluginThunk.

(* ================================================================= *)
(** * Further properties of the model session *)

Section SendPaths.
Context {catalog : ModelCatalog}.

Lemma send_ready rt prompt onChunk st name :
  chat st = ready name ->
  send rt prompt onChunk st =
    (result <- converse rt (webLLM name) prompt ;;
     forAwait onChunk (fragments result) (failure result) "") st.
Proof.
  intros H. unfold send. unfold bind at 1.
  rewrite (openStream_ready rt prompt st name H). reflexivity.
Qed.

Lemma dispatch_windowEvents rs st :
  let st' := fold_left (fun s r => dispatchEvent r s) rs st in
  windowEvents st' = (windowEvents st ++ rs)%list
  /\ calls st' = calls st /\ iopub st' = iopub st /\ chat st' = chat st.
Proof.
  revert st. induction rs as [| r rs IH]; intros st; simpl.
  - rewrite app_nil_r. repeat split.
  - destruct (IH (dispatchEvent r st)) as (Hw & Hc & Hi & Hk).
    rewrite Hw, Hc, Hi, Hk. simpl. rewrite <- app_assoc. repeat split.
Qed.

(** X9. On a browser where the model is unavailable, [send] fails
    with the WebGPU error right after the availability check: no
    session is created, no completion is requested and the callback
    is never invoked. *)
Theorem send_unsupported_browser
        (rt : Runtime) (prompt : string) (onChunk : option (string -> M State unit))
        (st : State) (name : string) :
  chat st = ready name ->
  availability rt (webLLM name) = Returned unavailable ->
  send rt prompt onChunk st =
    (Threw (Error "Browser does not support WebLLM / WebGPU."),
     logCall (CallAvailability (webLLM name)) st).
Proof.
  intros Hk Ha. rewrite (send_ready rt prompt onChunk st name Hk).
  unfold converse, bind, modify, liftOutcome. rewrite Ha. reflexivity.
Qed.

(** X10. When the model has to be downloaded (or is being
    downloaded), [send] creates the session before it asks for the
    completion, and republishes every progress report, in order, as a
    window event.  If the creation of the session fails, [send] fails
    with that error after the reports, and no completion is asked
    for. *)
Theorem send_creates_session_first
        (rt : Runtime) (prompt : string) (onChunk : option (string -> M State unit))
        (st : State) (name : string) (a : Availability) :
  chat st = ready name ->
  availability rt (webLLM name) = Returned a ->
  a = downloadable \/ a = downloading ->
  let h := webLLM name in
  let creation := createSessionWithProgress rt h in
  exists st1,
    calls st1 = (calls st ++ [CallAvailability h; CallCreateSession h])%list
    /\ windowEvents st1 = (windowEvents st ++ reports creation)%list
    /\ iopub st1 = iopub st /\ chat st1 = chat st
    /\ (forall e, rejection creation = Some e ->
          send rt prompt onChunk st = (Threw e, st1))
    /\ (rejection creation = None ->
          openStream rt prompt st =
            (streamText rt h prompt, logCall (CallStreamText h prompt) st1)).
Proof.
  intros Hk Ha Hdl h creation.
  set (st0 := logCall (CallCreateSession h) (logCall (CallAvailability h) st)).
  exists (fold_left (fun s r => dispatchEvent r s) (reports creation) st0).
  destruct (dispatch_windowEvents (reports creation) st0) as (Hw & Hc & Hi & Hch).
  split; [| split; [| split; [| split; [| split]]]].
  - rewrite Hc. unfold st0. simpl. rewrite <- app_assoc. reflexivity.
  - rewrite Hw. reflexivity.
  - rewrite Hi. reflexivity.
  - rewrite Hch. reflexivity.
  - intros e He. rewrite (send_ready rt prompt onChunk st name Hk).
    unfold converse, bind, modify, liftOutcome, dispatchReports, modify.
    rewrite Ha. fold h. fold creation.
    destruct Hdl as [-> | ->]; rewrite He; reflexivity.
  - intros Hnone. rewrite (openStream_ready rt prompt st name Hk).
    unfold converse, bind, modify, liftOutcome, dispatchReports, modify.
    rewrite Ha. fold h. fold creation.
    destruct Hdl as [-> | ->]; rewrite Hnone; simpl;
      destruct (streamText rt h prompt); reflexivity.
Qed.

End SendPaths.

Lemma send_unsupported_browser_witness :
  let st := snd (@setModel models_ts "SmolLM2-360M-Instruct-q4f16_1-MLC" newKernel) in
  calls (snd (@send models_ts unsupported "Hi" (Some (stream "stdout")) st))
  = [CallAvailability (webLLM "SmolLM2-360M-Instruct-q4f16_1-MLC")].
Proof.
  intros st.
  rewrite (@send_unsupported_browser models_ts unsupported "Hi" (Some (stream "stdout"))
             st "SmolLM2-360M-Instruct-q4f16_1-MLC" eq_refl eq_refl).
  reflexivity.
Defined.

Lemma send_creates_session_first_witness :
  let st := snd (@setModel catalogAB "B" newKernel) in
  let rt := fetching ["fetching 50%"; "fetching 100%"] (Some (Error "quota exceeded")) [] in
  exists st1,
    @send catalogAB rt "Hi" None st = (Threw (Error "quota exceeded"), st1)
    /\ calls st1 = [CallAvailability (webLLM "B"); CallCreateSession (webLLM "B")]
    /\ windowEvents st1 = ["fetching 50%"; "fetching 100%"].
Proof.
  intros st rt.
  destruct (@send_creates_session_first catalogAB rt "Hi" None st "B" downloadable
              eq_refl eq_refl (or_introl eq_refl))
    as (st1 & Hc & Hw & _ & _ & Hfail & _).
  exists st1. split; [apply Hfail; reflexivity |]. split; assumption.
Defined.

Section StreamEnds.
Context {catalog : ModelCatalog}.

Lemma forAwait_breaks f frs e reply st :
  (forall c s, fst (f c s) = Returned tt) ->
  forAwait (Some f) frs (Some e) reply st = (Threw e, fold_left (deliver f) frs st).
Proof.
  intros Hf. revert reply st.
  induction frs as [| c rest IH]; intros reply st.
  - reflexivity.
  - cbn [forAwait fold_left]. unfold bind at 1. unfold bind at 1.
    unfold modify at 1. unfold deliver at 2.
    specialize (Hf c (logCall (CallOnChunk c) st)).
    destruct (f c (logCall (CallOnChunk c) st)) as [o s']. simpl in Hf. subst o.
    simpl. apply IH.
Qed.

Lemma forAwait_callback_throws f pre c post failure e reply st :
  (forall x s, In x pre -> fst (f x s) = Returned tt) ->
  (forall s, fst (f c s) = Threw e) ->
  forAwait (Some f) (pre ++ c :: post) failure reply st =
    (Threw e, deliver f (fold_left (deliver f) pre st) c).
Proof.
  intros Hpre Hc. revert reply st.
  induction pre as [| x pre IH]; intros reply st.
  - cbn [app forAwait fold_left]. unfold bind at 1. unfold bind at 1.
    unfold modify at 1. unfold deliver.
    specialize (Hc (logCall (CallOnChunk c) st)).
    destruct (f c (logCall (CallOnChunk c) st)) as [o s']. simpl in Hc. subst o.
    reflexivity.
  - cbn [app forAwait fold_left]. unfold bind at 1. unfold bind at 1.
    unfold modify at 1. unfold deliver at 3.
    pose proof (Hpre x (logCall (CallOnChunk x) st) (or_introl eq_refl)) as Hx.
    destruct (f x (logCall (CallOnChunk x) st)) as [o s']. simpl in Hx. subst o.
    simpl. apply IH. intros y s Hy. apply Hpre. right. exact Hy.
Qed.

Lemma forAwait_no_callback frs failure reply st :
  forAwait None frs failure reply st =
    (match failure with
     | Some e => Threw e
     | None => Returned (reply ++ String.concat "" frs)
     end, st).
Proof.
  revert reply. induction frs as [| c rest IH]; intros reply.
  - simpl. destruct failure; [reflexivity |]. rewrite append_nil_r. reflexivity.
  - cbn [forAwait]. unfold bind at 1, ret at 1. rewrite IH.
    destruct failure; [reflexivity |].
    rewrite concat_nosep_cons, <- append_assoc. reflexivity.
Qed.

(** X11. When the stream fails after it has yielded the fragments
    [frs], [send] fails with the error of the stream, and does so only
    after [onChunk] has been invoked for every one of [frs], in
    order: what was streamed before the failure has been delivered. *)
Theorem send_stream_fails_midway
        (rt : Runtime) (prompt : string) (onChunk : string -> M State unit)
        (st st1 : State) (frs : list string) (e : Thrown) :
  openStream rt prompt st = (Returned (mkTextStream frs (Some e)), st1) ->
  (forall c s, fst (onChunk c s) = Returned tt) ->
  (forall c s, calls (snd (onChunk c s)) = calls s) ->
  exists st2,
    send rt prompt (Some onChunk) st = (Threw e, st2)
    /\ st2 = fold_left (deliver onChunk) frs st1
    /\ calls st2 = (calls st1 ++ map CallOnChunk frs)%list.
Proof.
  intros Hopen Hret Hframe.
  exists (fold_left (deliver onChunk) frs st1).
  split; [| split].
  - unfold send. rewrite (bind_returned _ _ _ _ _ Hopen). simpl.
    apply forAwait_breaks. exact Hret.
  - reflexivity.
  - apply deliver_calls. exact Hframe.
Qed.

(** X12. When [onChunk] throws on a fragment, [send] fails with what
    the callback threw, and the fragments after that one are never
    delivered, whatever the stream would have done next. *)
Theorem send_callback_throws
        (rt : Runtime) (prompt : string) (onChunk : string -> M State unit)
        (st st1 : State) (pre post : list string) (c : string)
        (failure : option Thrown) (e : Thrown) :
  openStream rt prompt st = (Returned (mkTextStream (pre ++ c :: post) failure), st1) ->
  (forall x s, In x pre -> fst (onChunk x s) = Returned tt) ->
  (forall s, fst (onChunk c s) = Threw e) ->
  (forall x s, calls (snd (onChunk x s)) = calls s) ->
  exists st2,
    send rt prompt (Some onChunk) st = (Threw e, st2)
    /\ calls st2 = (calls st1 ++ map CallOnChunk (pre ++ [c]))%list.
Proof.
  intros Hopen Hpre Hc Hframe.
  exists (deliver onChunk (fold_left (deliver onChunk) pre st1) c).
  split.
  - unfold send. rewrite (bind_returned _ _ _ _ _ Hopen). simpl.
    apply forAwait_callback_throws; assumption.
  - unfold deliver at 1. rewrite Hframe. simpl.
    rewrite (deliver_calls onChunk pre st1 Hframe).
    rewrite map_app, <- app_assoc. reflexivity.
Qed.

(** X13. Without a callback, [send] consumes the stream silently: it
    returns the concatenation of the fragments, or fails with the
    error of the stream, and leaves the state as it was when the
    stream was opened. *)
Theorem send_without_callback
        (rt : Runtime) (prompt : string) (st st1 : State) (result : TextStream) :
  openStream rt prompt st = (Returned result, st1) ->
  send rt prompt None st =
    (match failure result with
     | Some e => Threw e
     | None => Returned (String.concat "" (fragments result))
     end, st1).
Proof.
  intros Hopen. unfold send. rewrite (bind_returned _ _ _ _ _ Hopen).
  rewrite forAwait_no_callback. reflexivity.
Qed.

Lemma send_keeps_ready rt prompt onChunk st name :
  chat st = ready name ->
  (forall f c k, onChunk = Some f -> preserves (fun s => chat s = k) (f c)) ->
  chat (snd (send rt prompt onChunk st)) = ready name.
Proof.
  intros Hk Hcb.
  rewrite (send_ready rt prompt onChunk st name Hk).
  apply (preserves_bind (fun s => chat s = ready name)).
  - apply converse_preserves; intros; assumption.
  - intros result. apply forAwait_preserves.
    + intros c s H. exact H.
    + intros f c Hf. apply (Hcb f c (ready name) Hf).
  - exact Hk.
Qed.

(** X14. On a session that is not initialized, [send] initializes the
    default model before anything else, and the initialization stays
    whatever happens next: whether the availability check, the
    download, the stream or the callback fails, the session ends up
    initialized with the default model (the callback being one that
    leaves the fields of the session alone). *)
Theorem send_initializes_first
        (rt : Runtime) (prompt : string) (onChunk : option (string -> M State unit))
        (st : State) :
  initialized (chat st) = false ->
  In (getDefaultModel st) WEBLLM_MODELS ->
  (forall f c k, onChunk = Some f -> preserves (fun s => chat s = k) (f c)) ->
  chat (snd (send rt prompt onChunk st)) = ready (getDefaultModel st).
Proof.
  intros Hu Hin Hcb.
  pose proof (send_lazy rt prompt onChunk st Hu Hin) as Hlazy.
  set (st0 := set_chat (fun _ => ready (getDefaultModel st)) st) in Hlazy.
  pose proof (send_keeps_ready rt prompt onChunk st0 (getDefaultModel st) eq_refl Hcb)
    as Hkeep.
  rewrite (send_ready rt prompt onChunk st0 (getDefaultModel st) eq_refl) in Hkeep.
  rewrite Hlazy. exact Hkeep.
Qed.

End StreamEnds.

Lemma send_stream_fails_midway_witness :
  exists st2,
    @send models_ts (breaking ["He"; "l"] (Error "connection lost")) "Hi"
      (Some (stream "stdout")) newKernel = (Threw (Error "connection lost"), st2)
    /\ iopub st2 = [Stream "stdout" "He" ""; Stream "stdout" "l" ""].
Proof.
  destruct (@send_stream_fails_midway models_ts
              (breaking ["He"; "l"] (Error "connection lost")) "Hi" (stream "stdout")
              newKernel _ ["He"; "l"] (Error "connection lost") eq_refl
              (fun _ _ => eq_refl) (fun _ _ => eq_refl))
    as (st2 & Hsend & Hst & _).
  exists st2. split; [exact Hsend |]. rewrite Hst. reflexivity.
Defined.

Lemma send_callback_throws_witness :
  let onChunk := fun c : string =>
    if String.eqb c "b" then @throw State unit (Error "stop") else ret tt in
  exists st2,
    @send models_ts (streaming ["a"; "b"; "c"]) "Hi" (Some onChunk) newKernel
      = (Threw (Error "stop"), st2)
    /\ calls st2 =
         [ CallAvailability (webLLM "Llama-3.2-3B-Instruct-q4f16_1-MLC");
           CallStreamText (webLLM "Llama-3.2-3B-Instruct-q4f16_1-MLC") "Hi";
           CallOnChunk "a"; CallOnChunk "b" ].
Proof.
  intros onChunk.
  destruct (@send_callback_throws models_ts (streaming ["a"; "b"; "c"]) "Hi" onChunk
              newKernel _ ["a"] ["c"] "b" None (Error "stop") eq_refl)
    as (st2 & Hsend & Hcalls).
  - intros x s [<- | []]. reflexivity.
  - intros s. reflexivity.
  - intros x s. unfold onChunk. destruct (String.eqb x "b"); reflexivity.
  - exists st2. split; [exact Hsend | exact Hcalls].
Defined.

Lemma send_without_callback_witness :
  exists st1,
    @send models_ts (streaming ["He"; "llo"]) "Hi" None newKernel = (Returned "Hello", st1)
    /\ calls st1 =
         [ CallAvailability (webLLM "Llama-3.2-3B-Instruct-q4f16_1-MLC");
           CallStreamText (webLLM "Llama-3.2-3B-Instruct-q4f16_1-MLC") "Hi" ].
Proof.
  eexists. split.
  - rewrite (@send_without_callback models_ts (streaming ["He"; "llo"]) "Hi" newKernel
               (snd (@openStream models_ts (streaming ["He"; "llo"]) "Hi" newKernel))
               (mkTextStream ["He"; "llo"] None) eq_refl).
    reflexivity.
  - reflexivity.
Defined.

Lemma send_initializes_first_witness :
  chat (snd (@send models_ts unsupported "Hi" None newKernel))
  = ready "Llama-3.2-3B-Instruct-q4f16_1-MLC".
Proof.
  apply (@send_initializes_first models_ts unsupported "Hi" None newKernel).
  - reflexivity.
  - simpl. auto.
  - intros f c k H. discriminate H.
Defined.

(* ================================================================= *)
(** * Further properties of settings and model switching *)

Section SettingsAndSwitch.
Context {catalog : ModelCatalog}.
Import JsString.

Lemma updateSettings_accepted v st :
  updateSettings v st =
    (Returned tt, if accepted v then set_settingsDefaultModel v st else st).
Proof.
  unfold updateSettings, accepted. destruct v as [m |]; [| reflexivity].
  destruct (negb (String.eqb m "") && isValidWebLLMModel m)%bool; reflexivity.
Qed.



(** X16. Once a session is initialized, a change of the settings
    default does not reach it: the fields of the session are untouched
    and [send] keeps talking to the handle of the current model. *)
Theorem initialized_session_ignores_settings
        (rt : Runtime) (prompt : string) (onChunk : option (string -> M State unit))
        (st : State) (name : string) (v : option string) :
  chat st = ready name ->
  let st' := snd (updateSettings v st) in
  chat st' = ready name
  /\ send rt prompt onChunk st' =
       (result <- converse rt (webLLM name) prompt ;;
        forAwait onChunk (fragments result) (failure result) "") st'.
Proof.
  intros Hk st'.
  assert (Hk' : chat st' = ready name).
  { unfold st'. rewrite updateSettings_chat. exact Hk. }
  split; [exact Hk' |].
  apply send_ready. exact Hk'.
Qed.

Lemma modelsText_current st name :
  chat st = ready name ->
  exists rest, modelsText st = ("Current model: " ++ name) ++ rest.
Proof.
  intros Hk. unfold modelsText, isInitialized, getModelName. rewrite Hk.
  cbn [initialized modelName ready show].
  eexists. rewrite append_assoc. reflexivity.
Qed.

(** X17. Switching and reporting agree: after [setModel] with a
    catalog name on an initialized session, the answer says
    "changed", the session holds a fresh handle for that name, and the
    [%ai model] report that follows starts with "Current model: " and
    that name. *)
Theorem setModel_then_report (name : string) (st : State) :
  initialized (chat st) = true ->
  In name WEBLLM_MODELS ->
  exists st1 rest,
    setModel name st = (Returned ("Model changed to: " ++ name), st1)
    /\ getModelName st1 = Some name
    /\ model (chat st1) = Some (webLLM name)
    /\ handleMagic "%ai model" st1 =
         (Returned (Some (("Current model: " ++ name) ++ rest)), st1).
Proof.
  intros Hi Hin. apply isValidWebLLMModel_true in Hin.
  set (st1 := set_chat (fun _ => ready name) st).
  destruct (modelsText_current st1 name eq_refl) as [rest Hrest].
  exists st1, rest.
  split; [| split; [reflexivity | split; [reflexivity |]]].
  - rewrite (setModel_valid name st Hin), Hi. reflexivity.
  - rewrite (handleMagic_listing "%ai model" st1 (or_introl eq_refl)).
    rewrite Hrest. reflexivity.
Qed.

(** X18. On a session that is not initialized the [%ai model] report
    starts with "Model not yet initialized. Default: " and the
    resolved default; after a first [send], even one that failed after
    the initialization, it starts with "Current model: " and that
    default. *)
Theorem report_before_and_after_first_send
        (rt : Runtime) (prompt : string) (st : State) :
  initialized (chat st) = false ->
  In (getDefaultModel st) WEBLLM_MODELS ->
  let st1 := snd (send rt prompt (Some (stream "stdout")) st) in
  exists rest rest1,
    handleMagic "%ai model" st =
      (Returned (Some (("Model not yet initialized. Default: " ++ getDefaultModel st)
                       ++ rest)), st)
    /\ handleMagic "%ai model" st1 =
         (Returned (Some (("Current model: " ++ getDefaultModel st) ++ rest1)), st1).
Proof.
  intros Hu Hin st1.
  assert (Hk : chat st1 = ready (getDefaultModel st)).
  { unfold st1. rewrite (send_lazy rt prompt _ st Hu Hin).
    set (st0 := set_chat (fun _ => ready (getDefaultModel st)) st).
    rewrite <- (send_ready rt prompt _ st0 (getDefaultModel st) eq_refl).
    apply send_keeps_ready; [reflexivity |].
    intros f c k Hf. injection Hf as <-. intros s H. exact H. }
  destruct (modelsText_current st1 _ Hk) as [rest1 Hrest1].
  eexists. exists rest1. split.
  - rewrite (handleMagic_listing "%ai model" st (or_introl eq_refl)).
    unfold modelsText, isInitialized. rewrite Hu.
    rewrite append_assoc. reflexivity.
  - rewrite (handleMagic_listing "%ai model" st1 (or_introl eq_refl)).
    rewrite Hrest1. reflexivity.
Qed.

End SettingsAndSwitch.


Lemma initialized_session_ignores_settings_witness :
  let st := snd (@setModel catalogAB "A" newKernel) in
  let st' := snd (@updateSettings catalogAB (Some "B") st) in
  @getDefaultModel catalogAB st' = "B"
  /\ calls (snd (@send catalogAB (streaming ["ok"]) "Hi" None st')) =
       [CallAvailability (webLLM "A"); CallStreamText (webLLM "A") "Hi"].
Proof.
  intros st st'. split; [reflexivity |].
  destruct (@initialized_session_ignores_settings catalogAB (streaming ["ok"]) "Hi" None
              st "A" (Some "B") eq_refl) as [_ Hsend].
  fold st' in Hsend. rewrite Hsend. reflexivity.
Defined.

Lemma setModel_then_report_witness :
  let st := snd (@setModel catalogAB "A" newKernel) in
  exists st1 rest,
    @setModel catalogAB "B" st = (Returned "Model changed to: B", st1)
    /\ @handleMagic catalogAB "%ai model" st1 =
         (Returned (Some ("Current model: B" ++ rest)), st1).
Proof.
  intros st.
  destruct (@setModel_then_report catalogAB "B" st eq_refl)
    as (st1 & rest & Hset & _ & _ & Hreport).
  - right. left. reflexivity.
  - exists st1, rest. split; assumption.
Defined.

Lemma report_before_and_after_first_send_witness :
  let st1 := snd (@send catalogAB unsupported "Hi" (Some (stream "stdout")) newKernel) in
  exists rest rest1,
    @handleMagic catalogAB "%ai model" newKernel =
      (Returned (Some ("Model not yet initialized. Default: A" ++ rest)), newKernel)
    /\ @handleMagic catalogAB "%ai model" st1 =
         (Returned (Some ("Current model: A" ++ rest1)), st1).
Proof.
  intros st1.
  destruct (@report_before_and_after_first_send catalogAB unsupported "Hi" newKernel
              eq_refl (or_introl eq_refl)) as (rest & rest1 & H0 & H1).
  exists rest, rest1. split; assumption.
Defined.

(* ================================================================= *)
(** * Further properties of the magic command interpreter *)

Section TrimFacts.
Import JsString.

Lemma trimStart_whiteSpace_app w s :
  allWhiteSpace w = true -> trimStart (w ++ s) = trimStart s.
Proof.
  induction w as [| c w IH]; simpl; [reflexivity |].
  intros H. apply andb_prop in H. destruct H as [Hc Hw].
  rewrite Hc. apply IH. exact Hw.
Qed.

Lemma trimEnd_whiteSpace r : allWhiteSpace r = true -> trimEnd r = "".
Proof.
  induction r as [| c r IH]; simpl; [reflexivity |].
  intros H. apply andb_prop in H. destruct H as [Hc Hr].
  rewrite (IH Hr), Hc. reflexivity.
Qed.

Lemma trimEnd_app_whiteSpace s r :
  allWhiteSpace r = true -> trimEnd (s ++ r) = trimEnd s.
Proof.
  intros Hr. induction s as [| c s IH].
  - simpl. apply trimEnd_whiteSpace. exact Hr.
  - cbn [append trimEnd]. rewrite IH. reflexivity.
Qed.

Lemma trimStart_app_nonempty s r :
  trimStart s <> "" -> trimStart (s ++ r) = trimStart s ++ r.
Proof.
  induction s as [| c s IH]; simpl.
  - intros H. contradiction H. reflexivity.
  - destruct (isWhiteSpace c); [exact IH | reflexivity].
Qed.

Lemma trimStart_empty_whiteSpace s : trimStart s = "" -> allWhiteSpace s = true.
Proof.
  induction s as [| c s IH]; simpl; [reflexivity |].
  destruct (isWhiteSpace c); [exact IH | discriminate].
Qed.

Lemma trim_padded l s r :
  allWhiteSpace l = true -> allWhiteSpace r = true ->
  trim (l ++ s ++ r) = trim s.
Proof.
  intros Hl Hr. unfold trim. rewrite (trimStart_whiteSpace_app l _ Hl).
  destruct (trimStart s) as [| c t] eqn:E.
  - pose proof (trimStart_empty_whiteSpace s E) as Hs.
    rewrite (trimStart_whiteSpace_app s r Hs).
    assert (Hrr : trimStart r = "").
    { clear - Hr. induction r as [| c r IH]; simpl; [reflexivity |].
      simpl in Hr. apply andb_prop in Hr. destruct Hr as [Hc Hr].
      rewrite Hc. apply IH. exact Hr. }
    rewrite Hrr. reflexivity.
  - rewrite trimStart_app_nonempty; [| rewrite E; discriminate].
    rewrite E. apply trimEnd_app_whiteSpace. exact Hr.
Qed.

Lemma stripPrefix_sound p s r : stripPrefix p s = Some r -> s = p ++ r.
Proof.
  revert s. induction p as [| a p IH]; intros s H; simpl in H.
  - injection H as <-. reflexivity.
  - destruct s as [| b s]; [discriminate H |].
    destruct (Ascii.eqb a b) eqn:E; [| discriminate H].
    apply Ascii.eqb_eq in E. subst b. simpl. rewrite (IH s H). reflexivity.
Qed.

Lemma trimStart_split s :
  exists w, s = w ++ trimStart s /\ allWhiteSpace w = true.
Proof.
  induction s as [| c s IH]; simpl.
  - exists "". split; reflexivity.
  - destruct (isWhiteSpace c) eqn:E.
    + destruct IH as (w & Hs & Hw). exists (String c w). split.
      * simpl. rewrite <- Hs. reflexivity.
      * simpl. rewrite E. exact Hw.
    + exists "". split; reflexivity.
Qed.

Lemma trimStart_idem s : trimStart (trimStart s) = trimStart s.
Proof.
  induction s as [| c s IH]; simpl; [reflexivity |].
  destruct (isWhiteSpace c) eqn:E; [exact IH |]. simpl. rewrite E. reflexivity.
Qed.

Lemma skipWhiteSpace1_sound s r :
  skipWhiteSpace1 s = Some r ->
  exists w, s = w ++ r /\ isWhiteSpaceRun w = true /\ trimStart r = r.
Proof.
  unfold skipWhiteSpace1. destruct s as [| c s]; [discriminate |].
  destruct (isWhiteSpace c) eqn:E; [| discriminate].
  intros H. injection H as <-.
  destruct (trimStart_split s) as (w & Hs & Hw).
  exists (String c w). split; [| split].
  - simpl. rewrite <- Hs. reflexivity.
  - simpl. rewrite E. exact Hw.
  - apply trimStart_idem.
Qed.

Lemma skipWhiteSpace1_complete w r :
  isWhiteSpaceRun w = true -> trimStart r = r ->
  skipWhiteSpace1 (w ++ r) = Some r.
Proof.
  destruct w as [| c w]; [discriminate |]. simpl.
  intros H Hr. apply andb_prop in H. destruct H as [Hc Hw].
  rewrite Hc, (trimStart_whiteSpace_app w r Hw), Hr. reflexivity.
Qed.

End TrimFacts.

Section MagicForms.
Context {catalog : ModelCatalog}.
Import JsString.

(** X19. White space around a command does not matter: with any white
    space before and after it, the code is interpreted by
    [handleMagic] exactly as without. *)
Theorem handleMagic_ignores_surrounding_whiteSpace
        (l c r : string) (st : State) :
  allWhiteSpace l = true ->
  allWhiteSpace r = true ->
  handleMagic (l ++ c ++ r) st = handleMagic c st.
Proof.
  intros Hl Hr. unfold handleMagic. rewrite (trim_padded l c r Hl Hr). reflexivity.
Qed.

(** X20. The pattern of the switch command recognizes exactly the
    texts made of [%ai], white space, [model], white space and one
    token without white space, and captures that token. *)
Theorem modelMatch_recognizes (s name : string) :
  modelMatch s = Some name <->
  exists w1 w2,
    s = "%ai" ++ w1 ++ "model" ++ w2 ++ name
    /\ isWhiteSpaceRun w1 = true /\ isWhiteSpaceRun w2 = true
    /\ isToken name = true.
Proof.
  unfold modelMatch. split.
  - intros H.
    destruct (stripPrefix "%ai" s) as [r1 |] eqn:E1; [| discriminate H].
    destruct (skipWhiteSpace1 r1) as [r2 |] eqn:E2; [| discriminate H].
    destruct (stripPrefix "model" r2) as [r3 |] eqn:E3; [| discriminate H].
    destruct (skipWhiteSpace1 r3) as [r4 |] eqn:E4; [| discriminate H].
    destruct (isToken r4) eqn:E5; [| discriminate H].
    injection H as <-.
    apply stripPrefix_sound in E1. apply stripPrefix_sound in E3.
    destruct (skipWhiteSpace1_sound _ _ E2) as (w1 & H1 & Hw1 & _).
    destruct (skipWhiteSpace1_sound _ _ E4) as (w2 & H2 & Hw2 & _).
    exists w1, w2. subst. repeat split; assumption.
  - intros (w1 & w2 & -> & Hw1 & Hw2 & Ht).
    rewrite stripPrefix_app.
    rewrite (skipWhiteSpace1_complete w1 _ Hw1); [| reflexivity].
    rewrite stripPrefix_app.
    rewrite (skipWhiteSpace1_complete w2 _ Hw2); [| apply trimStart_token; exact Ht].
    rewrite Ht. reflexivity.
Qed.

Lemma modelMatch_recognizes_witness :
  modelMatch ("%ai" ++ "  " ++ "model" ++ String "009" " " ++ "Qwen") = Some "Qwen".
Proof.
  apply (proj2 (modelMatch_recognizes _ "Qwen")).
  exists "  ", (String "009" " "). repeat split.
Defined.

(** X21. Code whose trimmed text does not start with [%ai] is never a
    magic: [handleMagic] returns nothing for it and leaves the state
    alone, so that it goes to the model as a prompt. *)
Theorem ordinary_code_is_not_magic (c : string) (st : State) :
  stripPrefix "%ai" (trim c) = None ->
  handleMagic c st = (Returned None, st).
Proof.
  intros H. unfold handleMagic.
  assert (Hne : forall t, stripPrefix "%ai" t <> None -> String.eqb (trim c) t = false).
  { intros t Ht. apply String.eqb_neq. intros E. apply Ht. rewrite <- E. exact H. }
  rewrite (Hne "%ai model"), (Hne "%ai models"), (Hne "%ai"), (Hne "%ai help")
    by discriminate.
  unfold modelMatch. rewrite H. reflexivity.
Qed.

(** X22. A switch command with two names is not recognized as a
    magic: nothing validates either name, no error is raised and the
    session is untouched by [handleMagic]; the whole text goes to the
    model as a prompt. *)
Theorem two_names_are_not_a_switch (n1 n2 : string) (st : State) :
  isToken n1 = true -> isToken n2 = true ->
  handleMagic ("%ai model " ++ n1 ++ " " ++ n2) st = (Returned None, st).
Proof.
  intros H1 H2. unfold handleMagic.
  assert (Htrim : trim ("%ai model " ++ n1 ++ " " ++ n2) = "%ai model " ++ n1 ++ " " ++ n2).
  { unfold trim.
    change (trimStart ("%ai model " ++ n1 ++ " " ++ n2))
      with ("%ai model " ++ n1 ++ " " ++ n2).
    replace ("%ai model " ++ n1 ++ " " ++ n2) with (("%ai model " ++ n1 ++ " ") ++ n2)
      by (rewrite !append_assoc; reflexivity).
    apply trimEnd_before_token. exact H2. }
  rewrite Htrim.
  destruct n1 as [| a n1]; [discriminate H1 |].
  assert (Ha : isWhiteSpace a = false).
  { simpl in H1. apply andb_prop in H1. destruct H1 as [Ha _].
    apply negb_true_iff. exact Ha. }
  set (u := n1 ++ String " " n2).
  change (String a n1 ++ " " ++ n2) with (String a u).
  assert (Hnot : allNonWhiteSpace u = false).
  { unfold u. clear. induction n1 as [| b n1 IH]; simpl.
    - reflexivity.
    - rewrite IH. apply andb_false_r. }
  change (String.eqb ("%ai model " ++ String a u) "%ai model"
          || String.eqb ("%ai model " ++ String a u) "%ai models")%bool with false.
  change (modelMatch ("%ai model " ++ String a u))
    with (if isToken (trimStart (String a u))
          then Some (trimStart (String a u)) else None).
  change (String.eqb ("%ai model " ++ String a u) "%ai"
          || String.eqb ("%ai model " ++ String a u) "%ai help")%bool with false.
  cbn [trimStart]. rewrite Ha. cbn [isToken allNonWhiteSpace].
  rewrite Hnot, andb_false_r. reflexivity.
Qed.

End MagicForms.

Lemma handleMagic_ignores_surrounding_whiteSpace_witness :
  exists text,
    @handleMagic models_ts (String "010" "  " ++ "%ai help" ++ String "009" " ") newKernel
      = (Returned (Some text), newKernel)
    /\ @handleMagic models_ts "%ai help" newKernel = (Returned (Some text), newKernel).
Proof.
  exists helpText. split; [| reflexivity].
  rewrite (@handleMagic_ignores_surrounding_whiteSpace models_ts
             (String "010" "  ") "%ai help" (String "009" " ") newKernel eq_refl eq_refl).
  reflexivity.
Defined.

Lemma two_names_are_not_a_switch_witness :
  @handleMagic models_ts "%ai model SmolLM2 360M" newKernel = (Returned None, newKernel).
Proof.
  apply (@two_names_are_not_a_switch models_ts "SmolLM2" "360M"); reflexivity.
Defined.

Lemma ordinary_code_is_not_magic_witness :
  @handleMagic models_ts " What does %ai model do? " newKernel = (Returned None, newKernel).
Proof.
  apply (@ordinary_code_is_not_magic models_ts). reflexivity.
Defined.


(* ================================================================= *)
(** * Further properties of [executeRequest] and [activate] *)

Section Requests.
Context {catalog : ModelCatalog}.

Lemma deliver_stream frs s :
  let s' := fold_left (deliver (stream "stdout")) frs s in
  iopub s' = (iopub s ++ stdoutOf (parentHeader s) frs)%list
  /\ calls s' = (calls s ++ map CallOnChunk frs)%list
  /\ parentHeader s' = parentHeader s
  /\ executionCount s' = executionCount s
  /\ chat s' = chat s.
Proof.
  revert s. induction frs as [| c frs IH]; intros s; simpl.
  - rewrite !app_nil_r. repeat split.
  - destruct (IH (deliver (stream "stdout") s c)) as (Hi & Hc & Hh & He & Hk).
    rewrite Hi, Hc, Hh, He, Hk. unfold deliver. simpl.
    rewrite <- !app_assoc. repeat split.
Qed.

Lemma openStream_available rt c st name :
  chat st = ready name ->
  availability rt (webLLM name) = Returned available ->
  openStream rt c st =
    (streamText rt (webLLM name) c,
     logCall (CallStreamText (webLLM name) c)
       (logCall (CallAvailability (webLLM name)) st)).
Proof.
  intros Hk Ha. rewrite (openStream_ready rt c st name Hk).
  unfold converse, bind, modify, liftOutcome. rewrite Ha. simpl.
  destruct (streamText rt (webLLM name) c); reflexivity.
Qed.

Lemma handleMagic_none_run c st :
  fst (handleMagic c st) = Returned None -> handleMagic c st = (Returned None, st).
Proof.
  intros H. destruct (handleMagic c st) as [o s0] eqn:E. simpl in H. subst o.
  rewrite (handleMagic_none c st s0 E). reflexivity.
Qed.

(** X23. For code that is not a magic, on an initialized session
    whose model is available, [executeRequest] hands the code to the
    model as it was submitted (not trimmed), publishes one stdout
    stream message per fragment, in the order of the stream and with
    nothing else in between, and returns status "ok" with the host's
    execution count. *)
Theorem executeRequest_streams_reply
        (rt : Runtime) (c : string) (st : State) (name : string) (frs : list string) :
  fst (handleMagic c st) = Returned None ->
  chat st = ready name ->
  availability rt (webLLM name) = Returned available ->
  streamText rt (webLLM name) c = Returned (mkTextStream frs None) ->
  exists st',
    executeRequest rt (mkContent (Some c)) st =
      (Returned (ReplyOk (executionCount st) [] []), st')
    /\ published st st' = stdoutOf (parentHeader st) frs
    /\ calls st' =
         (calls st ++ [CallAvailability (webLLM name); CallStreamText (webLLM name) c]
          ++ map CallOnChunk frs)%list
    /\ chat st' = chat st.
Proof.
  intros Hmagic Hk Ha Hs.
  pose proof (handleMagic_none_run c st Hmagic) as Hm.
  pose proof (openStream_available rt c st name Hk Ha) as Hopen. rewrite Hs in Hopen.
  set (st1 := logCall (CallStreamText (webLLM name) c)
                (logCall (CallAvailability (webLLM name)) st)) in *.
  destruct (deliver_stream frs st1) as (Hi & Hc & Hh & He & Hch).
  exists (fold_left (deliver (stream "stdout")) frs st1).
  split; [| split; [| split]].
  - unfold executeRequest. cbn [code]. unfold tryCatch.
    rewrite (bind_returned _ _ _ _ _ Hm).
    change (fun chunk : string => stream "stdout" chunk) with (stream "stdout").
    unfold send. unfold bind at 1. unfold bind at 1.
    rewrite Hopen. cbn [fragments failure].
    assert (Hret : forall (k : string) (s : State),
               fst (stream "stdout" k s) = Returned tt) by reflexivity.
    assert (Hfa : forAwait (Some (stream "stdout" : string -> M State unit))
                    frs None "" st1 =
                  (Returned ("" ++ String.concat "" frs),
                   fold_left (deliver (stream "stdout")) frs st1))
      by (apply forAwait_returns; exact Hret).
    rewrite Hfa.
    unfold bind, getState, ret. rewrite He. reflexivity.
  - apply published_since. rewrite Hi. reflexivity.
  - rewrite Hc. unfold st1. simpl. rewrite <- !app_assoc. reflexivity.
  - rewrite Hch. reflexivity.
Qed.

(** X24. When the stream fails after some fragments, the stdout
    messages already published for them stay, the error message
    follows them, and the reply has status "error" with the message of
    the stream's error. *)
Theorem executeRequest_keeps_partial_output
        (rt : Runtime) (c : string) (st : State) (name : string)
        (frs : list string) (e : Thrown) :
  fst (handleMagic c st) = Returned None ->
  chat st = ready name ->
  availability rt (webLLM name) = Returned available ->
  streamText rt (webLLM name) c = Returned (mkTextStream frs (Some e)) ->
  exists st',
    executeRequest rt (mkContent (Some c)) st =
      (Returned (ReplyError (executionCount st) "Error" (failureMessage e) []), st')
    /\ published st st' =
         (stdoutOf (parentHeader st) frs
          ++ [ExecuteError "Error" (failureMessage e) [] (parentHeader st)])%list.
Proof.
  intros Hmagic Hk Ha Hs.
  pose proof (handleMagic_none_run c st Hmagic) as Hm.
  pose proof (openStream_available rt c st name Hk Ha) as Hopen. rewrite Hs in Hopen.
  set (st1 := logCall (CallStreamText (webLLM name) c)
                (logCall (CallAvailability (webLLM name)) st)) in *.
  destruct (deliver_stream frs st1) as (Hi & Hc & Hh & He & Hch).
  set (st2 := fold_left (deliver (stream "stdout")) frs st1) in *.
  exists (publish (ExecuteError "Error" (failureMessage e) [] (parentHeader st2)) st2).
  split.
  - unfold executeRequest. cbn [code]. unfold tryCatch.
    rewrite (bind_returned _ _ _ _ _ Hm).
    change (fun chunk : string => stream "stdout" chunk) with (stream "stdout").
    unfold send. unfold bind at 1. unfold bind at 1.
    rewrite Hopen. cbn [fragments failure].
    assert (Hret : forall (k : string) (s : State),
               fst (stream "stdout" k s) = Returned tt) by reflexivity.
    assert (Hfa : forAwait (Some (stream "stdout" : string -> M State unit))
                    frs (Some e) "" st1 =
                  (Threw e, fold_left (deliver (stream "stdout")) frs st1))
      by (apply forAwait_breaks; exact Hret).
    rewrite Hfa.
    fold st2. unfold publishExecuteError, bind, modify, getState, ret.
    cbn [executionCount publish]. rewrite He. reflexivity.
  - apply published_since. simpl. rewrite Hi, Hh. simpl.
    rewrite <- app_assoc. reflexivity.
Qed.

Lemma extends_refl st : extends st st.
Proof.
  unfold extends. repeat split; exists []; rewrite app_nil_r; reflexivity.
Qed.

Lemma executeRequest_count rt content st o st' :
  executeRequest rt content st = (o, st') ->
  exists reply, o = Returned reply /\ executionCountOf reply = executionCount st'.
Proof.
  unfold executeRequest, tryCatch.
  set (c := match code content with Some c => c | None => "" end).
  unfold bind at 1.
  destruct (handleMagic c st) as [[[text |] | e] s1].
  - intros H. injection H as <- <-. eexists. split; reflexivity.
  - unfold bind at 1.
    destruct (send rt c (Some (fun chunk => stream "stdout" chunk)) s1) as [[r | e] s2];
      intros H; injection H as <- <-; eexists; split; reflexivity.
  - intros H. injection H as <- <-. eexists. split; reflexivity.
Qed.

(** X25. Every execute request, magic or not, successful or not,
    returns a reply (it never throws) that carries the host's
    execution count, leaves the execution count, the parent header
    and the settings default as they were, and only appends to what
    was published, to the calls made and to the window events. *)
Theorem executeRequest_extends (rt : Runtime) (content : Content) (st : State) :
  exists reply st',
    executeRequest rt content st = (Returned reply, st')
    /\ executionCountOf reply = executionCount st
    /\ extends st st'.
Proof.
  destruct (executeRequest rt content st) as [o st'] eqn:Hrun.
  destruct (executeRequest_count rt content st o st' Hrun) as (reply & -> & Hc).
  assert (Hext : extends st st').
  { change st' with (snd (Returned reply, st')). rewrite <- Hrun.
    apply (executeRequest_preserves (extends st)).
    - intros name s H. unfold initializeModel.
      destruct (negb (isValidWebLLMModel name)); exact H.
    - intros k s (H1 & H2 & H3 & H4 & (l & H5) & H6).
      repeat split; try assumption. exists (l ++ [k])%list. simpl.
      rewrite H5, <- app_assoc. reflexivity.
    - intros r s (H1 & H2 & H3 & H4 & H5 & (l & H6)).
      repeat split; try assumption. exists (l ++ [r])%list. simpl.
      rewrite H6, <- app_assoc. reflexivity.
    - intros m s (H1 & H2 & H3 & (l & H4) & H5 & H6).
      repeat split; try assumption. exists (l ++ [m])%list. simpl.
      rewrite H4, <- app_assoc. reflexivity.
    - apply extends_refl. }
  exists reply, st'. split; [reflexivity |]. split; [| exact Hext].
  rewrite Hc. destruct Hext as (H1 & _). exact H1.
Qed.

(** X26. [activate] returns whatever the host does: a setting
    registry that is absent or whose [load] fails leaves the default
    model alone and does not keep the kernel from being offered; the
    kernel spec [webllm-chat] is offered once when
    [kernelspecs.register] is there, also when that call throws, and
    not at all otherwise; loaded settings change the default exactly
    when their value is a non-empty catalog name. *)
Theorem activate_tolerates_failures
        (settingRegistry : option (Outcome (option string)))
        (kernelspecs : option (Outcome unit)) (st : State) :
  exists a,
    activate settingRegistry kernelspecs st =
      (Returned a,
       match settingRegistry with
       | Some (Returned v) => if accepted v then set_settingsDefaultModel v st else st
       | _ => st
       end)
    /\ registerCalls a = match kernelspecs with Some _ => [webllmChatSpec] | None => [] end
    /\ listening a = match kernelspecs with Some _ => true | None => false end.
Proof.
  unfold activate.
  destruct settingRegistry as [[v | e] |];
    destruct kernelspecs as [[[] | e'] |];
    unfold bind, tryCatch, liftOutcome, ret;
    try rewrite updateSettings_accepted;
    eexists; (split; [reflexivity | split; reflexivity]).
Qed.

End Requests.

Lemma executeRequest_streams_reply_witness :
  let st := snd (@setModel catalogAB "B" newKernel) in
  exists st',
    @executeRequest catalogAB (streaming ["He"; "llo"]) (mkContent (Some "  say hi ")) st =
      (Returned (ReplyOk 0 [] []), st')
    /\ published st st' = [Stream "stdout" "He" ""; Stream "stdout" "llo" ""]
    /\ calls st' = [ CallAvailability (webLLM "B"); CallStreamText (webLLM "B") "  say hi ";
                     CallOnChunk "He"; CallOnChunk "llo" ].
Proof.
  intros st.
  destruct (@executeRequest_streams_reply catalogAB (streaming ["He"; "llo"]) "  say hi "
              st "B" ["He"; "llo"] eq_refl eq_refl eq_refl eq_refl)
    as (st' & Hrun & Hpub & Hcalls & _).
  exists st'. split; [exact Hrun |]. split; [exact Hpub | exact Hcalls].
Defined.

Lemma executeRequest_keeps_partial_output_witness :
  let st := snd (@setModel catalogAB "B" newKernel) in
  exists st',
    @executeRequest catalogAB (breaking ["He"] (Error "connection lost"))
      (mkContent (Some "say hi")) st =
      (Returned (ReplyError 0 "Error" "connection lost" []), st')
    /\ published st st' =
         [Stream "stdout" "He" ""; ExecuteError "Error" "connection lost" [] ""].
Proof.
  intros st.
  destruct (@executeRequest_keeps_partial_output catalogAB
              (breaking ["He"] (Error "connection lost")) "say hi"
              st "B" ["He"] (Error "connection lost") eq_refl eq_refl eq_refl eq_refl)
    as (st' & Hrun & Hpub).
  exists st'. split; [exact Hrun | exact Hpub].
Defined.

(* ================================================================= *)
(** * Properties of the first plugin *)

Section SelectorFacts.
Context {catalog : ModelCatalog}.

Lemma indexActivate_registered page :
  indexActivate (Some (Returned tt)) page =
    (let saved := match storedModelId page with
                  | Some s => s
                  | None => DEFAULT_WEBLLM_MODEL
                  end in
     (Returned (map (fun id => {| option_value := id;
                                  option_textContent := id;
                                  option_selected := String.eqb id saved |})
                    WEBLLM_MODELS),
      {| storedModelId := storedModelId page; webllmModelId := Some saved |})).
Proof. reflexivity. Qed.

(** X27. A selection survives a reload: once the user has picked a
    model of the catalog in the selector, a kernel created on the
    page uses it, and after a reload of the page the activation of the
    plugin brings it back from [localStorage]: the page holds it
    again, its option and only its option is marked selected, and a
    kernel created without a model option uses it. *)
Theorem selection_survives_reload (v : string) (page : Page) :
  In v WEBLLM_MODELS ->
  let p1 := snd (onchange v page) in
  exists options p2,
    indexActivate (Some (Returned tt)) (reload p1) = (Returned options, p2)
    /\ webllmModelId p2 = Some v
    /\ (forall o, In o options -> (option_selected o = true <-> option_value o = v))
    /\ (exists o, In o options /\ option_selected o = true)
    /\ http_modelName (newChatHttpKernel None p1) = v
    /\ http_modelName (newChatHttpKernel None p2) = v.
Proof.
  intros Hin p1. do 2 eexists.
  split; [apply indexActivate_registered |].
  cbv zeta. cbn [reload p1 onchange storedModelId].
  split; [reflexivity |]. split; [| split; [| split; reflexivity]].
  - intros o Ho. apply in_map_iff in Ho. destruct Ho as (id & <- & _). simpl.
    apply String.eqb_eq.
  - exists {| option_value := v; option_textContent := v; option_selected := true |}.
    split; [| reflexivity]. apply in_map_iff. exists v.
    rewrite String.eqb_refl. split; [reflexivity | exact Hin].
Qed.

(** X28. The saved model id is never validated: when [localStorage]
    holds an id that is not in the catalog, the activation marks no
    option as selected, yet publishes that id on the page, and a
    kernel created without a model option is bound to it.  When the
    plugin could not register its kernel the selector is not set up at
    all, and such a kernel falls back to the id written in
    [ChatHttpKernel]. *)
Theorem unknown_saved_model_is_used (s : string) (page : Page) :
  storedModelId page = Some s ->
  ~ In s WEBLLM_MODELS ->
  (exists options p2,
     indexActivate (Some (Returned tt)) page = (Returned options, p2)
     /\ (forall o, In o options -> option_selected o = false)
     /\ newChatHttpKernel None p2 = {| http_modelName := s; http_model := webLLM s |})
  /\ indexActivate None (reload page) = (Returned [], reload page)
  /\ http_modelName (newChatHttpKernel None (reload page))
     = "Llama-3.2-3B-Instruct-q4f16_1-MLC".
Proof.
  intros Hs Hnot. split; [| split; reflexivity].
  do 2 eexists. split; [apply indexActivate_registered |].
  cbv zeta. rewrite Hs. split; [| reflexivity].
  intros o Ho. apply in_map_iff in Ho. destruct Ho as (id & <- & Hid). simpl.
  apply String.eqb_neq. intros ->. apply Hnot. exact Hid.
Qed.

End SelectorFacts.

Lemma selection_survives_reload_witness :
  let p1 := snd (@onchange "Mistral-7B-Instruct-v0.3-q4f16_1-MLC"
                   {| storedModelId := None; webllmModelId := None |}) in
  exists options p2,
    @indexActivate models_ts (Some (Returned tt)) (reload p1) = (Returned options, p2)
    /\ map option_selected options = [false; false; false; true]
    /\ http_modelName (newChatHttpKernel None p2) = "Mistral-7B-Instruct-v0.3-q4f16_1-MLC".
Proof.
  intros p1.
  destruct (@selection_survives_reload models_ts "Mistral-7B-Instruct-v0.3-q4f16_1-MLC"
              {| storedModelId := None; webllmModelId := None |})
    as (options & p2 & Hrun & _ & _ & _ & _ & Hk).
  - simpl. auto.
  - exists options, p2. split; [exact Hrun |]. split; [| exact Hk].
    injection Hrun as <- _. reflexivity.
Defined.

Lemma unknown_saved_model_is_used_witness :
  exists options p2,
    @indexActivate models_ts (Some (Returned tt))
      {| storedModelId := Some "Phi-2"; webllmModelId := None |} = (Returned options, p2)
    /\ map option_selected options = [false; false; false; false]
    /\ http_modelName (newChatHttpKernel None p2) = "Phi-2".
Proof.
  destruct (@unknown_saved_model_is_used models_ts "Phi-2"
              {| storedModelId := Some "Phi-2"; webllmModelId := None |} eq_refl)
    as ((options & p2 & Hrun & _ & Hk) & _).
  - simpl. intuition discriminate.
  - exists options, p2. split; [exact Hrun |]. split.
    + injection Hrun as <- _. reflexivity.
    + rewrite Hk. reflexivity.
Defined.

Section ResultKernel.

Lemma consume_concat frs failure reply :
  consume frs failure reply =
    match failure with
    | Some e => Threw e
    | None => Returned (reply ++ String.concat "" frs)
    end.
Proof.
  revert reply. induction frs as [| c frs IH]; intros reply.
  - simpl. destruct failure; [reflexivity |]. rewrite append_nil_r. reflexivity.
  - cbn [consume]. rewrite IH. destruct failure; [reflexivity |].
    rewrite concat_nosep_cons, <- append_assoc. reflexivity.
Qed.

(** X29. The first kernel publishes once per request and only after
    the stream has ended: it asks for the completion without any
    availability check, then publishes either one execute result
    holding the concatenation of all fragments, or, when the request
    or the stream fails (even after some fragments), one error message
    and nothing of the partial reply.  It returns in every case. *)
Theorem liteExecuteRequest_publishes_once
        (rt : Runtime) (content : Content) (k : HttpLiteKernel) :
  let c := match code content with Some c => c | None => "" end in
  let h := webLLM (lite_modelName k) in
  let failed e :=
    (HttpExecuteError "Error" (failureMessage e) [] (lite_parentHeader k),
     ReplyError (lite_executionCount k) "Error" (failureMessage e) []) in
  exists reply k' m,
    liteExecuteRequest rt content k = (Returned reply, k')
    /\ lite_calls k' = (lite_calls k ++ [CallStreamText h c])%list
    /\ lite_iopub k' = (lite_iopub k ++ [m])%list
    /\ (m, reply) =
         match streamText rt h c with
         | Returned result =>
             match failure result with
             | None =>
                 (ExecuteResult (String.concat "" (fragments result))
                                (lite_executionCount k) (lite_parentHeader k),
                  ReplyOk (lite_executionCount k) [] [])
             | Some e => failed e
             end
         | Threw e => failed e
         end.
Proof.
  intros c h failed.
  unfold liteExecuteRequest, tryCatch, liteSend. fold c.
  unfold bind, getState, modify, liftOutcome, ret. fold h.
  destruct (streamText rt h c) as [result | e].
  - rewrite consume_concat. destruct (failure result) as [e |].
    + do 3 eexists. repeat split.
    + do 3 eexists. repeat split.
  - do 3 eexists. repeat split.
Qed.

End ResultKernel.
